(** * QuantFlow: the Node-RED test-flow deployer (tools/deploy-test-flow.py)

    A shallow embedding of the script's three pieces of code, [deploy_flow],
    [get_flow_status] and the [__main__] block, as programs of a small
    state-and-exception monad.  The state is the chronological trace of what
    the script did to the outside world (lines printed, HTTP requests sent,
    seconds slept); the outside world itself (the flow file on disk, the
    answers of the Node-RED server) is a read-only environment. *)

From Stdlib Require Import ZArith String Ascii List PrimFloat DecimalString.
From stdpp Require Import base gmap strings list fin_maps.

Local Open Scope string_scope.
Local Open Scope Z_scope.

(** ** Python values as [json] produces them *)

(** The values [json.load] and [Response.json] return: [None], [bool],
    [int] (unbounded), [float] (binary64), [str], [list] and [dict] with
    string keys.  A [dict] is a finite map: two dicts are equal when they
    have the same keys with the same values, as Python's [==] has it. *)
#[warnings="-register-all"]
Inductive pyval : Type :=
| PNone
| PBool (b : bool)
| PInt (n : Z)
| PFloat (f : float)
| PStr (s : string)
| PList (l : list pyval)
| PDict (d : gmap string pyval).

(** [type(v).__name__], as exception messages spell it. *)
Definition type_name (v : pyval) : string :=
  match v with
  | PNone => "NoneType"
  | PBool _ => "bool"
  | PInt _ => "int"
  | PFloat _ => "float"
  | PStr _ => "str"
  | PList _ => "list"
  | PDict _ => "dict"
  end.

(** [bool(v)], the test of [if revision:]. *)
Definition truthy (v : pyval) : bool :=
  match v with
  | PNone => false
  | PBool b => b
  | PInt n => negb (n =? 0)
  | PFloat f => negb (PrimFloat.eqb f PrimFloat.zero)
  | PStr s => negb (String.eqb s "")
  | PList l => match l with [] => false | _ => true end
  | PDict d => negb (bool_decide (d = ∅))
  end.

Definition str_of_Z (n : Z) : string := NilZero.string_of_int (Z.to_int n).

(** [v == s] for a string literal [s]: only the same [str] is equal to it. *)
Definition py_eq_str (v : pyval) (s : string) : bool :=
  match v with
  | PStr s' => String.eqb s' s
  | _ => false
  end.

(** [k in s] on two strings. *)
Fixpoint is_substring (k s : string) : bool :=
  String.prefix k s ||
  match s with
  | EmptyString => false
  | String _ s' => is_substring k s'
  end.

(** ** Exceptions *)

(** The classes this script can meet; each is a subclass of [Exception], so
    [except Exception] catches every value of [exn].  ([KeyboardInterrupt] and
    [SystemExit] are not, and are not modelled.) *)
Inductive exn_class : Type :=
| FileNotFoundError
| PermissionError
| JSONDecodeError
| RequestException
| AttributeError
| TypeError
| KeyError.

(** An exception object: its class and [str(e)], which [f"{e}"] prints. *)
Record exn : Type := mk_exn { exn_type : exn_class; exn_str : string }.

Inductive outcome (A : Type) : Type :=
| Return (a : A)
| Raise (e : exn).
Arguments Return {A} a.
Arguments Raise {A} e.

(** ** The outside world *)

(** What a JSON parser makes of a text: a value, or a decode error with its
    message. *)
Inductive parsed : Type :=
| NotJson (msg : string)
| Json (v : pyval).

Inductive file_state : Type :=
| Missing
| Unreadable
| Readable (contents : parsed).

(** A [requests.Response]: the attributes the script reads, and what its
    [json()] method gives. *)
Record response : Type :=
  { status_code : Z; text : string; json : parsed }.

Inductive http_result : Type :=
| Failed (msg : string)        (* the call raises a RequestException *)
| Responded (r : response).

Inductive request : Type :=
| Get (url : string)
| Post (url : string) (body : pyval) (headers : gmap string string).

(** The environment of one run.  [net n] is the result of the HTTP call
    made when [n] calls were made before it; [repr] is the interpreter's
    text for a float, a list or a dict. *)
Record env : Type :=
  { fs : string -> file_state;
    net : nat -> http_result;
    repr : pyval -> string }.

Inductive event : Type :=
| Printed (line : string)
| Sent (r : request)
| Slept (seconds : Z).

Definition is_sent (ev : event) : bool :=
  match ev with Sent _ => true | _ => false end.

Definition is_slept (ev : event) : bool :=
  match ev with Slept _ => true | _ => false end.

Definition calls_made (tr : list event) : nat :=
  length (List.filter is_sent tr).

(** ** The monad: read the environment, extend the trace, return or raise *)

Definition py (A : Type) : Type := env -> list event -> outcome A * list event.

Definition ret {A} (a : A) : py A := fun _ tr => (Return a, tr).

Definition raise {A} (e : exn) : py A := fun _ tr => (Raise e, tr).

Definition bind {A B} (m : py A) (k : A -> py B) : py B :=
  fun w tr =>
    match m w tr with
    | (Return a, tr') => k a w tr'
    | (Raise e, tr') => (Raise e, tr')
    end.

(** [try: body  except Exception as e: handler e] *)
Definition try_except {A} (body : py A) (handler : exn -> py A) : py A :=
  fun w tr =>
    match body w tr with
    | (Return a, tr') => (Return a, tr')
    | (Raise e, tr') => handler e w tr'
    end.

Declare Scope py_scope.
Delimit Scope py_scope with py.
Notation "'let*' x := m 'in' k" := (bind m (fun x => k))
  (at level 10, x name, m at level 100, k at level 200) : py_scope.
Notation "m >> k" := (bind m (fun _ => k))
  (at level 100, k at level 200, right associativity) : py_scope.
Local Open Scope py_scope.

Fixpoint for_each {A} (l : list A) (body : A -> py unit) : py unit :=
  match l with
  | [] => ret tt
  | x :: l' => body x >> for_each l' body
  end.

(** ** The library calls the script makes *)

Definition print_ (line : string) : py unit :=
  fun _ tr => (Return tt, (tr ++ [Printed line])%list).

Definition sleep (seconds : Z) : py unit :=
  fun _ tr => (Return tt, (tr ++ [Slept seconds])%list).

(** One HTTP call: it is recorded, and the network decides how it ends. *)
Definition http_call (r : request) : py response :=
  fun w tr =>
    match net w (calls_made tr) with
    | Failed msg => (Raise (mk_exn RequestException msg), (tr ++ [Sent r])%list)
    | Responded resp => (Return resp, (tr ++ [Sent r])%list)
    end.

Definition requests_get (url : string) : py response := http_call (Get url).

Definition requests_post (url : string) (body : pyval)
    (headers : gmap string string) : py response :=
  http_call (Post url body headers).

Definition json_decode (p : parsed) : py pyval :=
  match p with
  | NotJson msg => raise (mk_exn JSONDecodeError msg)
  | Json v => ret v
  end.

(** [with open(path, 'r') as f: json.load(f)] *)
Definition open_json_load (path : string) : py pyval :=
  fun w tr =>
    match fs w path with
    | Missing =>
        (Raise (mk_exn FileNotFoundError
                  ("[Errno 2] No such file or directory: '" ++ path ++ "'")), tr)
    | Unreadable =>
        (Raise (mk_exn PermissionError
                  ("[Errno 13] Permission denied: '" ++ path ++ "'")), tr)
    | Readable contents => json_decode contents w tr
    end.

(** [response.json()] *)
Definition response_json (r : response) : py pyval := json_decode (json r).

(** [v.get(key, default)]: only a dict has the method. *)
Definition dict_get (v : pyval) (key : string) (dflt : pyval) : py pyval :=
  match v with
  | PDict d => ret (default dflt (d !! key))
  | _ => raise (mk_exn AttributeError
                  ("'" ++ type_name v ++ "' object has no attribute 'get'"))
  end.

(** [key in v] *)
Definition py_in (key : string) (v : pyval) : py bool :=
  match v with
  | PDict d => ret (bool_decide (is_Some (d !! key)))
  | PStr s => ret (is_substring key s)
  | PList l => ret (existsb (fun x => py_eq_str x key) l)
  | _ => raise (mk_exn TypeError
                  ("argument of type '" ++ type_name v ++ "' is not iterable"))
  end.

(** [v[key]] for a string [key]; a missing key of a dict is a [KeyError],
    whose text is the key between quotes. *)
Definition getitem (v : pyval) (key : string) : py pyval :=
  match v with
  | PDict d =>
      match d !! key with
      | Some x => ret x
      | None => raise (mk_exn KeyError ("'" ++ key ++ "'"))
      end
  | PStr _ => raise (mk_exn TypeError "string indices must be integers, not 'str'")
  | PList _ =>
      raise (mk_exn TypeError "list indices must be integers or slices, not str")
  | _ => raise (mk_exn TypeError
                  ("'" ++ type_name v ++ "' object is not subscriptable"))
  end.

(** [len(v)] *)
Definition py_len (v : pyval) : py nat :=
  match v with
  | PList l => ret (length l)
  | PStr s => ret (String.length s)
  | PDict d => ret (size d)
  | _ => raise (mk_exn TypeError
                  ("object of type '" ++ type_name v ++ "' has no len()"))
  end.

(** The items [for node in v] visits: the elements of a list, the characters
    of a string, the keys of a dict. *)
Definition py_iter (v : pyval) : py (list pyval) :=
  match v with
  | PList l => ret l
  | PStr s => ret (List.map (fun c => PStr (String c EmptyString))
                     (list_ascii_of_string s))
  | PDict d => ret (List.map (fun kv => PStr (fst kv)) (map_to_list d))
  | _ => raise (mk_exn TypeError
                  ("'" ++ type_name v ++ "' object is not iterable"))
  end.

(** [f"{v}"]: a string prints as itself. *)
Definition format (w : env) (v : pyval) : string :=
  match v with
  | PNone => "None"
  | PBool true => "True"
  | PBool false => "False"
  | PInt n => str_of_Z n
  | PStr s => s
  | _ => repr w v
  end.

Definition formatted (v : pyval) : py string := fun w tr => (Return (format w v), tr).

(** ** The script *)

Definition nodered_url : string := "http://localhost:1880".

(** Lines 16-41, the suite of [deploy_flow]'s [try]. *)
Definition deploy_flow_try (nodes : pyval) : py bool :=
  let* response := requests_get (nodered_url ++ "/flows") in
  let* revision :=
    (if status_code response =? 200 then
       let* flow_data := response_json response in
       dict_get flow_data "rev" PNone
     else ret PNone) in
  let flow_data : gmap string pyval := {[ "flows" := nodes ]} in
  let flow_data :=
    if truthy revision then <[ "rev" := revision ]> flow_data else flow_data in
  let headers : gmap string string :=
    {[ "Content-Type" := "application/json" ]} in
  let* response :=
    requests_post (nodered_url ++ "/flows") (PDict flow_data) headers in
  if status_code response =? 200 then
    print_ "Flow deployed successfully!" >>
    ret true
  else
    print_ ("Failed to deploy flow: " ++ str_of_Z (status_code response)) >>
    print_ (text response) >>
    ret false.

(** Lines 43-45, its [except Exception as e] suite. *)
Definition deploy_flow_except (e : exn) : py bool :=
  print_ ("Error deploying flow: " ++ exn_str e) >>
  ret false.

(** The file is read (lines 9-10) before the [try] statement begins. *)
Definition deploy_flow : py bool :=
  let* nodes := open_json_load "test-flow.json" in
  try_except (deploy_flow_try nodes) deploy_flow_except.

(** The body of the [for node in flows] loop. *)
Definition print_node (node : pyval) : py unit :=
  let* type := dict_get node "type" PNone in
  if py_eq_str type "tab" then
    let* label := dict_get node "label" (PStr "Unnamed") in
    let* label := formatted label in
    print_ ("Flow tab: " ++ label)
  else
    let* named := py_in "name" node in
    if named then
      let* name := getitem node "name" in
      let* name := formatted name in
      let* type := getitem node "type" in
      let* type := formatted type in
      print_ ("Node: " ++ name ++ " (Type: " ++ type ++ ")")
    else ret tt.

(** Lines 49-63, the suite of [get_flow_status]'s [try]. *)
Definition get_flow_status_try : py bool :=
  let* response := requests_get (nodered_url ++ "/flows") in
  if status_code response =? 200 then
    let* flow_data := response_json response in
    let* flows := dict_get flow_data "flows" (PList []) in
    let* n := py_len flows in
    print_ ("Number of nodes: " ++ str_of_Z (Z.of_nat n)) >>
    let* nodes := py_iter flows in
    for_each nodes print_node >>
    ret true
  else
    print_ ("Failed to get flows: " ++ str_of_Z (status_code response)) >>
    ret false.

(** Lines 64-66, its [except Exception as e] suite. *)
Definition get_flow_status_except (e : exn) : py bool :=
  print_ ("Error getting flow status: " ++ exn_str e) >>
  ret false.

Definition get_flow_status : py bool :=
  try_except get_flow_status_try get_flow_status_except.

Definition newline : string := String (ascii_of_nat 10) EmptyString.

(** The [if __name__ == "__main__":] block. *)
Definition main : py unit :=
  print_ "Deploying test flow to Node-RED..." >>
  let* deployed := deploy_flow in
  if deployed then
    print_ "Waiting for flow to initialize..." >>
    sleep 5 >>
    print_ "Checking flow status..." >>
    let* _ := get_flow_status in
    print_ (newline ++ "Flow deployed successfully! You can now view the results in Node-RED's debug panel.") >>
    print_ "Access Node-RED at: http://localhost:1880" >>
    print_ "Make sure to click the 'Deploy' button in the Node-RED UI to activate the flow."
  else
    print_ "Failed to deploy flow.".

(** ** Vocabulary of the statements *)

Definition flows_url : string := "http://localhost:1880/flows".

Definition json_headers : gmap string string :=
  {[ "Content-Type" := "application/json" ]}.

(** What lines 18-21 bind to [revision] for the GET's response [g], or the
    exception they raise. *)
Definition revision_of (g : response) : outcome pyval :=
  if status_code g =? 200 then
    match json g with
    | NotJson msg => Raise (mk_exn JSONDecodeError msg)
    | Json (PDict d) => Return (default PNone (d !! "rev"))
    | Json v => Raise (mk_exn AttributeError
                        ("'" ++ type_name v ++ "' object has no attribute 'get'"))
    end
  else Return PNone.

(** The dict lines 24-29 build. *)
Definition payload (nodes revision : pyval) : gmap string pyval :=
  if truthy revision then <[ "rev" := revision ]> {[ "flows" := nodes ]}
  else {[ "flows" := nodes ]}.

Definition post_flows (nodes revision : pyval) : event :=
  Sent (Post flows_url (PDict (payload nodes revision)) json_headers).

(** What lines 52-53 bind to [flows] for the GET's response [g]. *)
Definition flows_of (g : response) : outcome pyval :=
  match json g with
  | NotJson msg => Raise (mk_exn JSONDecodeError msg)
  | Json (PDict d) => Return (default (PList []) (d !! "flows"))
  | Json v => Raise (mk_exn AttributeError
                      ("'" ++ type_name v ++ "' object has no attribute 'get'"))
  end.

(** [len(flows)] together with the items the loop then visits. *)
Definition items_of (flows : pyval) : outcome (nat * list pyval) :=
  match flows with
  | PList l => Return (length l, l)
  | PStr s =>
      Return (String.length s,
              List.map (fun c => PStr (String c EmptyString))
                (list_ascii_of_string s))
  | PDict d =>
      Return (size d, List.map (fun kv => PStr (fst kv)) (map_to_list d))
  | _ => Raise (mk_exn TypeError
                  ("object of type '" ++ type_name flows ++ "' has no len()"))
  end.

Definition is_printed (ev : event) : bool :=
  match ev with Printed _ => true | _ => false end.

Definition only_printed (out : list event) : Prop :=
  Forall (fun ev => is_printed ev = true) out.

Definition never_slept (out : list event) : Prop :=
  Forall (fun ev => is_slept ev = false) out.

(** A descriptor with a [name] field and no [type] field. *)
Definition lacks_type (d : gmap string pyval) : bool :=
  bool_decide (is_Some (d !! "name")) && bool_decide (d !! "type" = None).

(** The summary of one descriptor, in the specification's words: a tab line
    with its label (default [Unnamed]) when its type is [tab], else a node
    line with its name and type when it has a name, else nothing. *)
Definition descriptor_lines (w : env) (d : gmap string pyval) : list event :=
  if py_eq_str (default PNone (d !! "type")) "tab" then
    [Printed ("Flow tab: " ++ format w (default (PStr "Unnamed") (d !! "label")))]
  else
    match d !! "name" with
    | Some name =>
        [Printed ("Node: " ++ format w name ++ " (Type: "
                  ++ format w (default PNone (d !! "type")) ++ ")")]
    | None => []
    end.

Definition count_line (n : nat) : event :=
  Printed ("Number of nodes: " ++ str_of_Z (Z.of_nat n)).

(** ** Sample worlds *)

Definition repr_opaque (v : pyval) : string := "<" ++ type_name v ++ ">".

Definition ok_response (body : pyval) : response :=
  {| status_code := 200; text := "(json)"; json := Json body |}.

Definition error_response (code : Z) (body : string) : response :=
  {| status_code := code; text := body;
     json := NotJson "Expecting value: line 1 column 1 (char 0)" |}.

Definition sample_nodes : pyval :=
  PList [PDict {[ "id" := PStr "n1"; "type" := PStr "inject" ]}].

(** A world with one file state for every path and a scripted network; a
    call beyond the script is refused. *)
Definition world_of (f : file_state) (answers : list http_result) : env :=
  {| fs := fun _ => f;
     net := fun n => nth n answers (Failed "Connection refused");
     repr := repr_opaque |}.

Definition good_file : file_state := Readable (Json sample_nodes).

Definition tab_main : gmap string pyval :=
  {[ "type" := PStr "tab"; "label" := PStr "Main" ]}.

Definition inject_trigger1 : gmap string pyval :=
  {[ "type" := PStr "inject"; "name" := PStr "trigger1" ]}.

Definition untyped_node : gmap string pyval := {[ "name" := PStr "orphan" ]}.

Definition flows_body (ds : list (gmap string pyval)) : gmap string pyval :=
  {[ "rev" := PStr "abc"; "flows" := PList (List.map PDict ds) ]}.

Definition rev_response (rev : pyval) : response :=
  ok_response (PDict {[ "rev" := rev; "flows" := PList [] ]}).

(** GET gives revision ["abc"], POST is accepted. *)
Definition world_accepting : env :=
  world_of good_file
    [Responded (rev_response (PStr "abc")); Responded (ok_response PNone)].

(** GET is answered 503, POST is accepted. *)
Definition world_get_503 : env :=
  world_of good_file
    [Responded (error_response 503 "Service Unavailable");
     Responded (ok_response PNone)].

(** GET gives revision ["abc"], POST is answered 500. *)
Definition world_post_500 : env :=
  world_of good_file
    [Responded (rev_response (PStr "abc"));
     Responded (error_response 500 "Internal Server Error")].

(** GET gives an empty revision string, POST is accepted. *)
Definition world_empty_rev : env :=
  world_of good_file
    [Responded (rev_response (PStr "")); Responded (ok_response PNone)].

(** GET is answered 200 with a page that is not JSON. *)
Definition world_html_get : env :=
  world_of good_file
    [Responded {| status_code := 200; text := "<html>"; json := NotJson "Expecting value" |}].

(** The status query is answered 200 with the given descriptors. *)
Definition world_flows (ds : list (gmap string pyval)) : env :=
  world_of Missing [Responded (ok_response (PDict (flows_body ds)))].

(** The status query is answered 200 with the given JSON document. *)
Definition world_status (body : pyval) : env :=
  world_of Missing [Responded (ok_response body)].

(** ** Vocabulary and worlds of the further properties *)

Definition is_dict (v : pyval) : bool :=
  match v with PDict _ => true | _ => false end.

(** An item the loop body accepts: an object that does not have a name
    without a type. *)
Definition node_ok (v : pyval) : bool :=
  match v with PDict d => negb (lacks_type d) | _ => false end.

(** The values [len] accepts. *)
Definition is_sized (v : pyval) : bool :=
  match v with PList _ | PStr _ | PDict _ => true | _ => false end.

(** GET is answered 200 with a JSON list. *)
Definition world_get_list : env :=
  world_of good_file [Responded (ok_response (PList []))].

(** No call gets through. *)
Definition world_offline : env := world_of good_file [].

(** GET gives revision ["abc"], the POST does not get through. *)
Definition world_post_refused : env :=
  world_of good_file [Responded (rev_response (PStr "abc"))].

(** As [world_accepting] for the flow file and the first two calls; other
    files, later calls and the formatting differ. *)
Definition world_elsewhere : env :=
  {| fs := fun path =>
             if String.eqb path "test-flow.json" then good_file else Unreadable;
     net := fun n =>
              nth n [Responded (rev_response (PStr "abc"));
                     Responded (ok_response PNone);
                     Responded (error_response 500 "late")]
                (Failed "Network unreachable");
     repr := fun _ => "?" |}.

(** As [world_flows] for the first call and the formatting; the files and
    the later calls differ. *)
Definition world_flows_elsewhere (ds : list (gmap string pyval)) : env :=
  {| fs := fun _ => good_file;
     net := fun n =>
              nth n [Responded (ok_response (PDict (flows_body ds)));
                     Responded (ok_response PNone)]
                (Failed "Network unreachable");
     repr := repr_opaque |}.

(** A tab that also has a name, with a null label. *)
Definition tab_named : gmap string pyval :=
  {[ "type" := PStr "tab"; "name" := PStr "n"; "label" := PNone ]}.

(** * Proofs *)

(** ** Running a program one statement at a time *)

Lemma calls_made_app (tr1 tr2 : list event) :
  calls_made (tr1 ++ tr2)%list = (calls_made tr1 + calls_made tr2)%nat.
Proof. unfold calls_made. by rewrite List.filter_app, length_app. Qed.

Lemma calls_made_sent (tr : list event) (q : request) :
  calls_made (tr ++ [Sent q])%list = S (calls_made tr).
Proof. rewrite calls_made_app. unfold calls_made. simpl. lia. Qed.

Lemma calls_made_printed (tr : list event) (line : string) :
  calls_made (tr ++ [Printed line])%list = calls_made tr.
Proof. rewrite calls_made_app. unfold calls_made. simpl. lia. Qed.

Section Steps.
Context {A B : Type} (w : env) (tr : list event).

Lemma run_bind (m : py A) (k : A -> py B) :
  bind m k w tr =
    match m w tr with
    | (Return a, tr') => k a w tr'
    | (Raise e, tr') => (Raise e, tr')
    end.
Proof. reflexivity. Qed.

Lemma run_ret (a : A) : ret a w tr = (Return a, tr).
Proof. reflexivity. Qed.

Lemma run_raise (e : exn) : raise (A := A) e w tr = (Raise e, tr).
Proof. reflexivity. Qed.

Lemma run_try (body : py A) (handler : exn -> py A) :
  try_except body handler w tr =
    match body w tr with
    | (Return a, tr') => (Return a, tr')
    | (Raise e, tr') => handler e w tr'
    end.
Proof. reflexivity. Qed.
End Steps.

Lemma run_print (w : env) (tr : list event) (line : string) :
  print_ line w tr = (Return tt, (tr ++ [Printed line])%list).
Proof. reflexivity. Qed.

Lemma run_sleep (w : env) (tr : list event) (n : Z) :
  sleep n w tr = (Return tt, (tr ++ [Slept n])%list).
Proof. reflexivity. Qed.

Lemma run_http (w : env) (tr : list event) (q : request) :
  http_call q w tr =
    match net w (calls_made tr) with
    | Failed msg => (Raise (mk_exn RequestException msg), (tr ++ [Sent q])%list)
    | Responded r => (Return r, (tr ++ [Sent q])%list)
    end.
Proof. reflexivity. Qed.

Lemma run_formatted (w : env) (tr : list event) (v : pyval) :
  formatted v w tr = (Return (format w v), tr).
Proof. reflexivity. Qed.

Ltac py_step :=
  first
    [ rewrite run_bind | rewrite run_try | rewrite run_ret | rewrite run_raise
    | rewrite run_print | rewrite run_sleep | rewrite run_http
    | rewrite run_formatted | rewrite calls_made_sent
    | rewrite calls_made_printed | rewrite Z.eqb_refl
    | progress cbv beta iota ].

Ltac py_run :=
  unfold requests_get, requests_post, response_json, json_decode;
  repeat py_step.

(** A run that leaves the trace as it was. *)
Lemma no_events (tr : list event) :
  exists out, tr = (tr ++ out)%list /\ only_printed out.
Proof. exists []. rewrite app_nil_r. split; [done|constructor]. Qed.

Lemma only_printed_never_slept (out : list event) :
  only_printed out -> never_slept out.
Proof.
  unfold only_printed, never_slept. intros Hout.
  eapply Forall_impl; [exact Hout|]. by intros [].
Qed.

Lemma only_printed_no_calls (out : list event) :
  only_printed out -> calls_made out = 0%nat.
Proof.
  unfold calls_made. induction 1 as [|[] out Hev Hout IH]; simpl; done.
Qed.

(** ** [deploy_flow] *)

Lemma payload_None (nodes : pyval) : payload nodes PNone = {[ "flows" := nodes ]}.
Proof. reflexivity. Qed.

Lemma payload_rev_key (nodes revision : pyval) :
  is_Some (payload nodes revision !! "rev") <-> truthy revision = true.
Proof.
  unfold payload. destruct (truthy revision).
  - rewrite lookup_insert_eq. split; eauto.
  - rewrite lookup_singleton_ne by done. split; [intros [? ?]|]; done.
Qed.

Lemma revision_of_truthy (g : response) :
  (exists d v, status_code g = 200 /\ json g = Json (PDict d) /\
               d !! "rev" = Some v /\ truthy v = true)
  <-> (exists v, revision_of g = Return v /\ truthy v = true).
Proof.
  unfold revision_of. split.
  - intros (d & v & Hg & Hjson & Hrev & Hv).
    rewrite Hg, Hjson, Hrev. simpl. eauto.
  - intros (v & Hrev & Hv).
    destruct (status_code g =? 200) eqn:Hg; [|by simplify_eq].
    apply Z.eqb_eq in Hg.
    destruct (json g) as [msg|[]]; simplify_eq.
    destruct (d !! "rev") as [v|] eqn:Hd; simpl in Hv; [|done].
    by exists d, v.
Qed.

(** Every path through the [try] suite. *)
Lemma deploy_flow_try_run (nodes : pyval) (w : env) (tr : list event) :
  deploy_flow_try nodes w tr =
    match net w (calls_made tr) with
    | Failed msg =>
        (Raise (mk_exn RequestException msg), (tr ++ [Sent (Get flows_url)])%list)
    | Responded g =>
        match revision_of g with
        | Raise e => (Raise e, (tr ++ [Sent (Get flows_url)])%list)
        | Return revision =>
            match net w (S (calls_made tr)) with
            | Failed msg =>
                (Raise (mk_exn RequestException msg),
                 (tr ++ [Sent (Get flows_url); post_flows nodes revision])%list)
            | Responded p =>
                if status_code p =? 200 then
                  (Return true,
                   (tr ++ [Sent (Get flows_url); post_flows nodes revision;
                           Printed "Flow deployed successfully!"])%list)
                else
                  (Return false,
                   (tr ++ [Sent (Get flows_url); post_flows nodes revision;
                           Printed ("Failed to deploy flow: "
                                    ++ str_of_Z (status_code p));
                           Printed (text p)])%list)
            end
        end
    end.
Proof.
  unfold deploy_flow_try, revision_of, post_flows, payload. py_run.
  change (nodered_url ++ "/flows") with flows_url.
  change ({[ "Content-Type" := "application/json" ]}) with json_headers.
  destruct (net w (calls_made tr)) as [msg|g]; py_run; [reflexivity|].
  destruct (status_code g =? 200); py_run.
  - destruct (json g) as [msg|v]; py_run; [reflexivity|].
    destruct v; unfold dict_get; py_run; try reflexivity.
    destruct (net w (S (calls_made tr))) as [msg|p]; py_run;
      rewrite <- ?app_assoc; [reflexivity|].
    destruct (status_code p =? 200); py_run; by rewrite <- ?app_assoc.
  - destruct (net w (S (calls_made tr))) as [msg|p]; py_run;
      rewrite <- ?app_assoc; [reflexivity|].
    destruct (status_code p =? 200); py_run; by rewrite <- ?app_assoc.
Qed.

(** [deploy_flow] itself: the file first, then the guarded suite. *)
Lemma deploy_flow_run (w : env) (tr : list event) :
  deploy_flow w tr =
    match fs w "test-flow.json" with
    | Missing =>
        (Raise (mk_exn FileNotFoundError
                  "[Errno 2] No such file or directory: 'test-flow.json'"), tr)
    | Unreadable =>
        (Raise (mk_exn PermissionError
                  "[Errno 13] Permission denied: 'test-flow.json'"), tr)
    | Readable (NotJson msg) => (Raise (mk_exn JSONDecodeError msg), tr)
    | Readable (Json nodes) =>
        match deploy_flow_try nodes w tr with
        | (Return b, tr1) => (Return b, tr1)
        | (Raise e, tr1) =>
            (Return false,
             (tr1 ++ [Printed ("Error deploying flow: " ++ exn_str e)])%list)
        end
    end.
Proof.
  unfold deploy_flow, open_json_load. py_run.
  destruct (fs w "test-flow.json") as [| |[msg|nodes]]; py_run; reflexivity.
Qed.


(** The events a deploy adds: the GET, then either one error line, or the
    POST followed by printed lines only. *)
Lemma deploy_flow_events (w : env) (tr : list event) (nodes : pyval)
    (r : outcome bool) (out : list event) :
  fs w "test-flow.json" = Readable (Json nodes) ->
  deploy_flow w tr = (r, (tr ++ out)%list) ->
  match net w (calls_made tr) with
  | Failed msg =>
      out = [Sent (Get flows_url); Printed ("Error deploying flow: " ++ msg)]
  | Responded g =>
      match revision_of g with
      | Raise e =>
          out = [Sent (Get flows_url);
                 Printed ("Error deploying flow: " ++ exn_str e)]
      | Return revision =>
          exists tail,
            out = Sent (Get flows_url) :: post_flows nodes revision :: tail
            /\ Forall (fun ev => is_printed ev = true) tail
      end
  end.
Proof.
  intros Hfs Hrun.
  rewrite deploy_flow_run, Hfs, deploy_flow_try_run in Hrun.
  destruct (net w (calls_made tr)) as [msg|g].
  { rewrite <- app_assoc in Hrun. by simplify_list_eq. }
  destruct (revision_of g) as [revision|e].
  2:{ rewrite <- app_assoc in Hrun. by simplify_list_eq. }
  destruct (net w (S (calls_made tr))) as [msg|p].
  { rewrite <- app_assoc in Hrun. simplify_list_eq. eexists; split; eauto. }
  destruct (status_code p =? 200); simplify_list_eq; eexists; split; eauto.
Qed.

Lemma deploy_flow_never_sleeps (w : env) (tr : list event)
    (r : outcome bool) (tr1 : list event) :
  deploy_flow w tr = (r, tr1) ->
  exists out, tr1 = (tr ++ out)%list /\ never_slept out.
Proof.
  rewrite deploy_flow_run.
  destruct (fs w "test-flow.json") as [| |[msg|nodes]].
  1-3: intros [= <- <-]; exists []; rewrite app_nil_r; by split; [|constructor].
  rewrite deploy_flow_try_run.
  destruct (net w (calls_made tr)) as [msg|g].
  { rewrite <- app_assoc. intros [= <- <-]. eexists. split; [done|].
    by repeat constructor. }
  destruct (revision_of g) as [revision|e].
  2:{ rewrite <- app_assoc. intros [= <- <-]. eexists. split; [done|].
      by repeat constructor. }
  destruct (net w (S (calls_made tr))) as [msg|p].
  { rewrite <- app_assoc. intros [= <- <-]. eexists. split; [done|].
    by repeat constructor. }
  destruct (status_code p =? 200); intros [= <- <-]; eexists;
    (split; [done|]); by repeat constructor.
Qed.


(** Where a POST sits among the events the deploy adds. *)
Ltac locate_post H pre :=
  rewrite <- ?app_assoc in H; simpl in H;
  apply pair_equal_spec in H; destruct H as [? H];
  apply app_inv_head in H;
  repeat (destruct pre as [|? pre]; simpl in H; try discriminate H;
          injection H as ? H; try discriminate);
  subst.

(** C1, as stated, fails: when the flow file is missing, unreadable or not
    JSON, [deploy_flow] does not return false; the exception of [open] or
    [json.load] leaves it, with nothing printed and nothing sent. *)
Lemma deploy_flow_file_error_escapes :
  (deploy_flow (world_of Missing []) [] =
     (Raise (mk_exn FileNotFoundError
               "[Errno 2] No such file or directory: 'test-flow.json'"), [])
   /\ deploy_flow (world_of Unreadable []) [] =
        (Raise (mk_exn PermissionError
                  "[Errno 13] Permission denied: 'test-flow.json'"), [])
   /\ deploy_flow (world_of (Readable (NotJson "Expecting value")) []) [] =
        (Raise (mk_exn JSONDecodeError "Expecting value"), []))
  /\ ~ (exists tr', deploy_flow (world_of Missing []) [] = (Return false, tr'))
  /\ ~ (exists tr', deploy_flow (world_of Unreadable []) [] = (Return false, tr'))
  /\ ~ (exists tr',
          deploy_flow (world_of (Readable (NotJson "Expecting value")) []) [] =
            (Return false, tr')).
Proof.
  split; [repeat split; reflexivity|].
  repeat split; intros [tr' H]; vm_compute in H; discriminate H.
Qed.

(** C1, amended: the file is read before the [try] statement, so a missing,
    unreadable or malformed flow file makes [deploy_flow] raise to its caller
    (trace untouched); once the file is loaded, every exception raised by the
    guarded suite (the GET, the parsing of its body, the POST) is caught,
    printed as [Error deploying flow: ...] and turned into a false return. *)
Theorem deploy_flow_exceptions (w : env) (tr : list event) :
  match fs w "test-flow.json" with
  | Missing =>
      deploy_flow w tr =
        (Raise (mk_exn FileNotFoundError
                  "[Errno 2] No such file or directory: 'test-flow.json'"), tr)
  | Unreadable =>
      deploy_flow w tr =
        (Raise (mk_exn PermissionError
                  "[Errno 13] Permission denied: 'test-flow.json'"), tr)
  | Readable (NotJson msg) =>
      deploy_flow w tr = (Raise (mk_exn JSONDecodeError msg), tr)
  | Readable (Json nodes) =>
      match deploy_flow_try nodes w tr with
      | (Return b, tr1) => deploy_flow w tr = (Return b, tr1)
      | (Raise e, tr1) =>
          deploy_flow w tr =
            (Return false,
             (tr1 ++ [Printed ("Error deploying flow: " ++ exn_str e)])%list)
      end
  end.
Proof.
  rewrite deploy_flow_run.
  destruct (fs w "test-flow.json") as [| |[msg|nodes]]; try reflexivity.
  by destruct (deploy_flow_try nodes w tr) as [[b|e] tr1].
Qed.

(** C2: with a well-formed flow file, a GET answered 200 with a JSON object
    whose [rev] is ["abc"] and a POST answered 200, [deploy_flow] returns
    true, and the body it posted is the mapping
    [{"flows": <file contents>, "rev": "abc"}]. *)
Theorem deploy_flow_success (w : env) (tr : list event) (nodes : pyval)
    (g p : response) (d : gmap string pyval) :
  fs w "test-flow.json" = Readable (Json nodes) ->
  net w (calls_made tr) = Responded g ->
  status_code g = 200 ->
  json g = Json (PDict d) ->
  d !! "rev" = Some (PStr "abc") ->
  net w (S (calls_made tr)) = Responded p ->
  status_code p = 200 ->
  deploy_flow w tr =
    (Return true,
     (tr ++ [Sent (Get "http://localhost:1880/flows");
            Sent (Post "http://localhost:1880/flows"
                    (PDict {[ "flows" := nodes; "rev" := PStr "abc" ]})
                    {[ "Content-Type" := "application/json" ]});
            Printed "Flow deployed successfully!"])%list).
Proof.
  intros Hfs Hget Hg Hjson Hrev Hpost Hp.
  rewrite deploy_flow_run, Hfs, deploy_flow_try_run, Hget.
  unfold revision_of. rewrite Hg, Hjson, Hrev, Hpost, Hp. simpl.
  unfold post_flows, payload. simpl.
  by rewrite insert_singleton_ne.
Qed.

(** C3: with a well-formed flow file, a GET answered with any status other
    than 200 is not fatal: the POST is still made, its body is exactly
    [{"flows": <file contents>}], without a [rev] key, and nothing but
    printed lines follows it. *)
Theorem deploy_flow_get_rejected (w : env) (tr : list event) (nodes : pyval)
    (g : response) :
  fs w "test-flow.json" = Readable (Json nodes) ->
  net w (calls_made tr) = Responded g ->
  status_code g <> 200 ->
  exists (b : bool) (out : list event),
    deploy_flow w tr =
      (Return b,
       (tr ++ [Sent (Get "http://localhost:1880/flows");
               Sent (Post "http://localhost:1880/flows"
                       (PDict {[ "flows" := nodes ]})
                       {[ "Content-Type" := "application/json" ]})]
           ++ out)%list)
    /\ only_printed out
    /\ ({[ "flows" := nodes ]} : gmap string pyval) !! "rev" = None.
Proof.
  intros Hfs Hget Hg. apply Z.eqb_neq in Hg.
  rewrite deploy_flow_run, Hfs, deploy_flow_try_run, Hget.
  unfold revision_of. rewrite Hg. unfold post_flows. rewrite payload_None.
  destruct (net w (S (calls_made tr))) as [msg|p].
  - exists false, [Printed ("Error deploying flow: " ++ msg)].
    rewrite <- app_assoc. repeat split; by repeat constructor.
  - destruct (status_code p =? 200).
    + exists true, [Printed "Flow deployed successfully!"].
      repeat split; by repeat constructor.
    + exists false, [Printed ("Failed to deploy flow: " ++ str_of_Z (status_code p));
                     Printed (text p)].
      repeat split; by repeat constructor.
Qed.

(** C4: with a well-formed flow file, whenever the deploy reaches its POST
    and that POST is answered with a status other than 200 (500, say),
    [deploy_flow] returns false (it does not raise), and what follows the
    POST is the printed status code, then the printed response body. *)
Theorem deploy_flow_post_rejected (w : env) (tr : list event) (nodes : pyval)
    (r : outcome bool) (pre post : list event) (url : string) (body : pyval)
    (headers : gmap string string) (p : response) :
  fs w "test-flow.json" = Readable (Json nodes) ->
  deploy_flow w tr = (r, (tr ++ pre ++ Sent (Post url body headers) :: post)%list) ->
  net w (calls_made (tr ++ pre)) = Responded p ->
  status_code p <> 200 ->
  r = Return false
  /\ post = [Printed ("Failed to deploy flow: " ++ str_of_Z (status_code p));
             Printed (text p)].
Proof.
  intros Hfs Hrun Hpost Hp. apply Z.eqb_neq in Hp.
  rewrite deploy_flow_run, Hfs, deploy_flow_try_run in Hrun.
  destruct (net w (calls_made tr)) as [msg|g].
  { locate_post Hrun pre. }
  destruct (revision_of g) as [revision|e].
  2:{ locate_post Hrun pre. }
  destruct (net w (S (calls_made tr))) as [msg|p'] eqn:Hnet.
  - locate_post Hrun pre. rewrite calls_made_sent in Hpost. congruence.
  - destruct (status_code p' =? 200) eqn:Hp'; locate_post Hrun pre;
      rewrite calls_made_sent in Hpost.
    all: rewrite Hnet in Hpost; injection Hpost as ->.
    + congruence.
    + done.
Qed.

(** C8: the posted body has a [rev] key exactly when the GET was answered
    200 with a JSON object whose [rev] field is present and truthy; a [rev]
    that is absent, the empty string, or any other falsy value gives the
    body [{"flows": <file contents>}] all the same. *)
Theorem deploy_flow_rev_key (w : env) (tr : list event) (nodes : pyval)
    (r : outcome bool) (out : list event) :
  fs w "test-flow.json" = Readable (Json nodes) ->
  deploy_flow w tr = (r, (tr ++ out)%list) ->
  ((exists url m headers,
       In (Sent (Post url (PDict m) headers)) out /\ is_Some (m !! "rev"))
   <->
   (exists g d v,
       net w (calls_made tr) = Responded g /\ status_code g = 200 /\
       json g = Json (PDict d) /\ d !! "rev" = Some v /\ truthy v = true))
  /\
  (forall g d,
      net w (calls_made tr) = Responded g -> status_code g = 200 ->
      json g = Json (PDict d) ->
      (d !! "rev" = None) \/ (d !! "rev" = Some (PStr "")) \/
        (exists v, d !! "rev" = Some v /\ truthy v = false) ->
      In (Sent (Post "http://localhost:1880/flows"
                  (PDict {[ "flows" := nodes ]})
                  {[ "Content-Type" := "application/json" ]})) out).
Proof.
  intros Hfs Hrun.
  pose proof (deploy_flow_events _ _ _ _ _ Hfs Hrun) as Hout.
  split; [split|].
  - intros (url & m & headers & Hin & Hm).
    destruct (net w (calls_made tr)) as [msg|g].
    { subst out. destruct Hin as [?|[?|[]]]; discriminate. }
    destruct (revision_of g) as [revision|e] eqn:Hrev.
    2:{ subst out. destruct Hin as [?|[?|[]]]; discriminate. }
    destruct Hout as (tail & -> & Htail).
    assert (m = payload nodes revision) as ->.
    { destruct Hin as [Hin|[Hin|Hin]]; [discriminate Hin| |].
      - unfold post_flows in Hin. by injection Hin.
      - rewrite List.Forall_forall in Htail. by apply Htail in Hin. }
    apply payload_rev_key in Hm.
    destruct (proj2 (revision_of_truthy g)) as (d & v & Hg & Hj & Hd & Hv);
      [eauto|].
    by exists g, d, v.
  - intros (g & d & v & Hget & Hg).
    rewrite Hget in Hout.
    destruct (proj1 (revision_of_truthy g)) as (v' & Hrev & Hv'); [eauto|].
    rewrite Hrev in Hout. destruct Hout as (tail & -> & _).
    exists flows_url, (payload nodes v'), json_headers. split.
    + right. by left.
    + by apply payload_rev_key.
  - intros g d Hget Hg Hjson Hd.
    rewrite Hget in Hout. unfold revision_of in Hout.
    rewrite Hg, Hjson in Hout. simpl in Hout.
    destruct Hout as (tail & -> & _). right. left.
    unfold post_flows, payload.
    destruct Hd as [->|[->|(v & -> & Hv)]]; simpl; try done.
    by rewrite Hv.
Qed.

(** C9: a GET answered 200 with a body that is not JSON aborts the deploy:
    the parse error is raised inside the guarded suite after that single
    call, [deploy_flow] prints it and returns false, and no POST is made. *)
Theorem deploy_flow_get_body_not_json (w : env) (tr : list event)
    (nodes : pyval) (g : response) (msg : string) :
  fs w "test-flow.json" = Readable (Json nodes) ->
  net w (calls_made tr) = Responded g ->
  status_code g = 200 ->
  json g = NotJson msg ->
  deploy_flow_try nodes w tr =
    (Raise (mk_exn JSONDecodeError msg),
     (tr ++ [Sent (Get "http://localhost:1880/flows")])%list)
  /\ deploy_flow w tr =
       (Return false,
        (tr ++ [Sent (Get "http://localhost:1880/flows");
                Printed ("Error deploying flow: " ++ msg)])%list)
  /\ calls_made (snd (deploy_flow w tr)) = S (calls_made tr).
Proof.
  intros Hfs Hget Hg Hjson.
  rewrite deploy_flow_run, Hfs, deploy_flow_try_run, Hget.
  unfold revision_of. rewrite Hg, Hjson. simpl.
  rewrite <- app_assoc. repeat split.
  rewrite calls_made_app. unfold calls_made at 2. simpl. lia.
Qed.

(** ** Instances of the [deploy_flow] theorems *)

Lemma deploy_flow_success_witness :
  fs world_accepting "test-flow.json" = Readable (Json sample_nodes)
  /\ net world_accepting 0 = Responded (rev_response (PStr "abc"))
  /\ net world_accepting 1 = Responded (ok_response PNone)
  /\ deploy_flow world_accepting [] =
       (Return true,
        [Sent (Get "http://localhost:1880/flows");
         Sent (Post "http://localhost:1880/flows"
                 (PDict {[ "flows" := sample_nodes; "rev" := PStr "abc" ]})
                 {[ "Content-Type" := "application/json" ]});
         Printed "Flow deployed successfully!"]).
Proof.
  do 3 (split; [reflexivity|]).
  apply (deploy_flow_success world_accepting [] sample_nodes
           (rev_response (PStr "abc")) (ok_response PNone)
           {[ "rev" := PStr "abc"; "flows" := PList [] ]});
    reflexivity.
Defined.

Lemma deploy_flow_get_rejected_witness :
  status_code (error_response 503 "Service Unavailable") <> 200
  /\ exists (b : bool) (out : list event),
       deploy_flow world_get_503 [] =
         (Return b,
          ([] ++ [Sent (Get "http://localhost:1880/flows");
                  Sent (Post "http://localhost:1880/flows"
                          (PDict {[ "flows" := sample_nodes ]})
                          {[ "Content-Type" := "application/json" ]})]
              ++ out)%list)
       /\ only_printed out
       /\ ({[ "flows" := sample_nodes ]} : gmap string pyval) !! "rev" = None.
Proof.
  split; [discriminate|].
  apply (deploy_flow_get_rejected world_get_503 [] sample_nodes
           (error_response 503 "Service Unavailable"));
    [reflexivity|reflexivity|discriminate].
Defined.

Lemma deploy_flow_post_rejected_witness :
  deploy_flow world_post_500 [] =
    (Return false,
     ([] ++ [Sent (Get flows_url)]
         ++ Sent (Post flows_url (PDict (payload sample_nodes (PStr "abc")))
                    json_headers)
         :: [Printed "Failed to deploy flow: 500";
             Printed "Internal Server Error"])%list)
  /\ net world_post_500 (calls_made ([] ++ [Sent (Get flows_url)])) =
       Responded (error_response 500 "Internal Server Error")
  /\ Return false = Return false
  /\ [Printed "Failed to deploy flow: 500"; Printed "Internal Server Error"] =
     [Printed ("Failed to deploy flow: "
               ++ str_of_Z (status_code (error_response 500 "Internal Server Error")));
      Printed (text (error_response 500 "Internal Server Error"))].
Proof.
  split; [vm_compute; reflexivity|]. split; [reflexivity|].
  apply (deploy_flow_post_rejected world_post_500 [] sample_nodes
           (Return false) [Sent (Get flows_url)]
           [Printed "Failed to deploy flow: 500"; Printed "Internal Server Error"]
           flows_url (PDict (payload sample_nodes (PStr "abc"))) json_headers
           (error_response 500 "Internal Server Error"));
    [reflexivity|vm_compute; reflexivity|reflexivity|discriminate].
Defined.

Lemma deploy_flow_rev_key_witness :
  deploy_flow world_empty_rev [] =
    (Return true,
     ([] ++ [Sent (Get flows_url);
             Sent (Post flows_url (PDict {[ "flows" := sample_nodes ]})
                     json_headers);
             Printed "Flow deployed successfully!"])%list)
  /\ In (Sent (Post "http://localhost:1880/flows"
                 (PDict {[ "flows" := sample_nodes ]})
                 {[ "Content-Type" := "application/json" ]}))
        [Sent (Get flows_url);
         Sent (Post flows_url (PDict {[ "flows" := sample_nodes ]})
                 json_headers);
         Printed "Flow deployed successfully!"].
Proof.
  split; [vm_compute; reflexivity|].
  apply (proj2 (deploy_flow_rev_key world_empty_rev [] sample_nodes
                  (Return true) _ eq_refl ltac:(vm_compute; reflexivity))
           (rev_response (PStr ""))
           {[ "rev" := PStr ""; "flows" := PList [] ]});
    [reflexivity|reflexivity|reflexivity|].
  right. left. reflexivity.
Defined.

Lemma deploy_flow_get_body_not_json_witness :
  json {| status_code := 200; text := "<html>"; json := NotJson "Expecting value" |}
    = NotJson "Expecting value"
  /\ deploy_flow_try sample_nodes world_html_get [] =
       (Raise (mk_exn JSONDecodeError "Expecting value"),
        ([] ++ [Sent (Get "http://localhost:1880/flows")])%list)
  /\ deploy_flow world_html_get [] =
       (Return false,
        ([] ++ [Sent (Get "http://localhost:1880/flows");
                Printed ("Error deploying flow: " ++ "Expecting value")])%list)
  /\ calls_made (snd (deploy_flow world_html_get [])) = S (calls_made []).
Proof.
  split; [reflexivity|].
  apply (deploy_flow_get_body_not_json world_html_get [] sample_nodes
           {| status_code := 200; text := "<html>";
              json := NotJson "Expecting value" |} "Expecting value");
    reflexivity.
Defined.

(** ** [get_flow_status] *)

(** The loop body on a descriptor that is a JSON object. *)
Lemma print_node_dict (w : env) (tr : list event) (d : gmap string pyval) :
  print_node (PDict d) w tr =
    if lacks_type d then (Raise (mk_exn KeyError "'type'"), tr)
    else (Return tt, (tr ++ descriptor_lines w d)%list).
Proof.
  unfold print_node, lacks_type, descriptor_lines, dict_get, py_in, getitem.
  py_run.
  destruct (py_eq_str (default PNone (d !! "type")) "tab") eqn:Htab; py_run.
  - destruct (d !! "type") as [type|]; [|discriminate Htab].
    rewrite (bool_decide_eq_false_2 (Some type = None)) by done.
    by rewrite andb_false_r.
  - destruct (d !! "name") as [name|].
    + rewrite bool_decide_eq_true_2 by eauto. py_run.
      destruct (d !! "type") as [type|].
      * rewrite bool_decide_eq_false_2 by done. py_run. reflexivity.
      * rewrite bool_decide_eq_true_2 by done. py_run. reflexivity.
    + rewrite bool_decide_eq_false_2 by (intros [? ?]; done). py_run.
      by rewrite app_nil_r.
Qed.

Lemma for_each_descriptors (w : env) (ds : list (gmap string pyval)) :
  forall tr : list event,
  Forall (fun d => lacks_type d = false) ds ->
  for_each (List.map PDict ds) print_node w tr =
    (Return tt, (tr ++ flat_map (descriptor_lines w) ds)%list).
Proof.
  induction ds as [|d ds IH]; intros tr Hok; simpl.
  - by rewrite app_nil_r.
  - apply Forall_cons in Hok as [Hd Hds].
    rewrite run_bind, print_node_dict, Hd, IH by done.
    by rewrite <- app_assoc.
Qed.

(** The loop stops at the first descriptor with a name and no type. *)
Lemma for_each_lacks_type (w : env) (pre : list (gmap string pyval))
    (bad : gmap string pyval) (rest : list (gmap string pyval))
    (tr : list event) :
  Forall (fun d => lacks_type d = false) pre ->
  lacks_type bad = true ->
  for_each (List.map PDict (pre ++ bad :: rest)) print_node w tr =
    (Raise (mk_exn KeyError "'type'"),
     (tr ++ flat_map (descriptor_lines w) pre)%list).
Proof.
  revert tr. induction pre as [|d pre IH]; intros tr Hok Hbad; simpl.
  - by rewrite run_bind, print_node_dict, Hbad, app_nil_r.
  - apply Forall_cons in Hok as [Hd Hds].
    rewrite run_bind, print_node_dict, Hd, IH by done.
    by rewrite <- app_assoc.
Qed.

Lemma first_lacking_type (ds : list (gmap string pyval)) :
  Exists (fun d => lacks_type d = true) ds ->
  exists pre bad rest,
    ds = (pre ++ bad :: rest)%list /\
    Forall (fun d => lacks_type d = false) pre /\ lacks_type bad = true.
Proof.
  induction ds as [|d ds IH]; intros Hex; [by apply Exists_nil in Hex|].
  destruct (lacks_type d) eqn:Hd.
  - by exists [], d, ds.
  - apply Exists_cons in Hex as [Hex|Hex]; [congruence|].
    destruct (IH Hex) as (pre & bad & rest & -> & Hpre & Hbad).
    exists (d :: pre), bad, rest. by repeat split; [constructor|].
Qed.

Lemma descriptor_lines_printed (w : env) (d : gmap string pyval) :
  only_printed (descriptor_lines w d).
Proof.
  unfold descriptor_lines, only_printed.
  destruct (py_eq_str _ _); [by repeat constructor|].
  destruct (d !! "name"); by repeat constructor.
Qed.

Lemma print_node_events (w : env) (node : pyval) (tr : list event)
    (r : outcome unit) (tr' : list event) :
  print_node node w tr = (r, tr') ->
  exists out, tr' = (tr ++ out)%list /\ only_printed out.
Proof.
  destruct node as [| | | | | |d].
  1-6: unfold print_node, dict_get; py_run; intros [= <- <-];
       apply no_events.
  rewrite print_node_dict. destruct (lacks_type d); intros [= <- <-].
  - apply no_events.
  - eexists. split; [done|]. apply descriptor_lines_printed.
Qed.

Lemma for_each_events (w : env) (nodes : list pyval) :
  forall (tr : list event) (r : outcome unit) (tr' : list event),
  for_each nodes print_node w tr = (r, tr') ->
  exists out, tr' = (tr ++ out)%list /\ only_printed out.
Proof.
  induction nodes as [|node nodes IH]; intros tr r tr'; simpl.
  - intros [= <- <-]. apply no_events.
  - rewrite run_bind.
    destruct (print_node node w tr) as [[[]|e] tr1] eqn:Hnode;
      apply print_node_events in Hnode as (out1 & -> & Hout1).
    + intros Hrest. apply IH in Hrest as (out2 & -> & Hout2).
      exists (out1 ++ out2)%list. rewrite app_assoc. split; [done|].
      by apply Forall_app.
    + intros [= <- <-]. eauto.
Qed.

(** Every path through the [try] suite. *)
Lemma get_flow_status_try_run (w : env) (tr : list event) :
  get_flow_status_try w tr =
    match net w (calls_made tr) with
    | Failed msg =>
        (Raise (mk_exn RequestException msg), (tr ++ [Sent (Get flows_url)])%list)
    | Responded g =>
        if status_code g =? 200 then
          match flows_of g with
          | Raise e => (Raise e, (tr ++ [Sent (Get flows_url)])%list)
          | Return flows =>
              match items_of flows with
              | Raise e => (Raise e, (tr ++ [Sent (Get flows_url)])%list)
              | Return (n, nodes) =>
                  match for_each nodes print_node w
                          (tr ++ [Sent (Get flows_url); count_line n])%list with
                  | (Return _, tr2) => (Return true, tr2)
                  | (Raise e, tr2) => (Raise e, tr2)
                  end
              end
          end
        else
          (Return false,
           (tr ++ [Sent (Get flows_url);
                   Printed ("Failed to get flows: "
                            ++ str_of_Z (status_code g))])%list)
    end.
Proof.
  unfold get_flow_status_try, flows_of, items_of, count_line. py_run.
  change (nodered_url ++ "/flows") with flows_url.
  destruct (net w (calls_made tr)) as [msg|g]; py_run; [reflexivity|].
  destruct (status_code g =? 200); py_run; [|by rewrite <- app_assoc].
  destruct (json g) as [msg|v]; py_run; [reflexivity|].
  destruct v as [| | | | | |d]; unfold dict_get; py_run; try reflexivity.
  destruct (default (PList []) (d !! "flows")) as [| | | |s|l|d'];
    unfold py_len, py_iter; py_run; rewrite <- ?app_assoc; reflexivity.
Qed.

Lemma get_flow_status_run (w : env) (tr : list event) :
  get_flow_status w tr =
    match get_flow_status_try w tr with
    | (Return b, tr1) => (Return b, tr1)
    | (Raise e, tr1) =>
        (Return false,
         (tr1 ++ [Printed ("Error getting flow status: " ++ exn_str e)])%list)
    end.
Proof. reflexivity. Qed.

(** What one status query adds to the trace: its GET, then printed lines. *)
Lemma get_flow_status_events (w : env) (tr : list event)
    (r : outcome bool) (tr' : list event) :
  get_flow_status w tr = (r, tr') ->
  exists b out,
    r = Return b /\ tr' = (tr ++ Sent (Get flows_url) :: out)%list /\
    only_printed out.
Proof.
  rewrite get_flow_status_run, get_flow_status_try_run.
  destruct (net w (calls_made tr)) as [msg|g].
  { rewrite <- app_assoc. intros [= <- <-]. eexists _, _. repeat split.
    by repeat constructor. }
  destruct (status_code g =? 200).
  2:{ intros [= <- <-]. eexists _, _. repeat split. by repeat constructor. }
  destruct (flows_of g) as [flows|e].
  2:{ rewrite <- app_assoc. intros [= <- <-]. eexists _, _. repeat split.
      by repeat constructor. }
  destruct (items_of flows) as [[n nodes]|e].
  2:{ rewrite <- app_assoc. intros [= <- <-]. eexists _, _. repeat split.
      by repeat constructor. }
  destruct (for_each nodes print_node w _) as [[[]|e] tr2] eqn:Hloop;
    apply for_each_events in Hloop as (out & -> & Hout);
    rewrite <- ?app_assoc; intros [= <- <-]; eexists _, _;
    (split; [reflexivity|split; [reflexivity|]]).
  - by constructor.
  - constructor; [done|]. apply Forall_app. split; [done|by repeat constructor].
Qed.

(** C5, as stated, fails: a GET answered 200 with a JSON body does not
    always make [get_flow_status] return true.  It returns false when the
    body is not an object, when its [flows] is not a sequence, when a
    descriptor is not an object, and when a descriptor has a name but no
    type. *)
Lemma get_flow_status_json_body_fails :
  get_flow_status (world_status (PList [])) [] =
    (Return false,
     [Sent (Get flows_url);
      Printed "Error getting flow status: 'list' object has no attribute 'get'"])
  /\ get_flow_status (world_status (PDict {[ "flows" := PNone ]})) [] =
       (Return false,
        [Sent (Get flows_url);
         Printed "Error getting flow status: object of type 'NoneType' has no len()"])
  /\ get_flow_status (world_status (PDict {[ "flows" := PList [PInt 1] ]})) [] =
       (Return false,
        [Sent (Get flows_url); Printed "Number of nodes: 1";
         Printed "Error getting flow status: 'int' object has no attribute 'get'"])
  /\ get_flow_status (world_flows [untyped_node]) [] =
       (Return false,
        [Sent (Get flows_url); Printed "Number of nodes: 1";
         Printed "Error getting flow status: 'type'"]).
Proof. repeat split; vm_compute; reflexivity. Qed.

(** C5, amended: for every GET answered 200 whose JSON body is an object
    whose [flows] field is absent or is a list of objects, none of which has
    a [name] field without a [type] field, [get_flow_status] returns true
    and prints the number of descriptors, then for each descriptor in order
    a tab line with its label (default [Unnamed]) when its type is [tab],
    else a node line with its name and type when it has a name, else
    nothing. *)
Theorem get_flow_status_summary (w : env) (tr : list event) (g : response)
    (body : gmap string pyval) (ds : list (gmap string pyval)) :
  net w (calls_made tr) = Responded g ->
  status_code g = 200 ->
  json g = Json (PDict body) ->
  default (PList []) (body !! "flows") = PList (List.map PDict ds) ->
  Forall (fun d => lacks_type d = false) ds ->
  get_flow_status w tr =
    (Return true,
     (tr ++ Sent (Get "http://localhost:1880/flows")
         :: Printed ("Number of nodes: " ++ str_of_Z (Z.of_nat (length ds)))
         :: flat_map (descriptor_lines w) ds)%list).
Proof.
  intros Hget Hg Hjson Hflows Hds.
  rewrite get_flow_status_run, get_flow_status_try_run, Hget, Hg.
  unfold flows_of. rewrite Hjson, Hflows. simpl.
  rewrite for_each_descriptors by done.
  by rewrite length_map, <- app_assoc.
Qed.

(** C6: [get_flow_status] never raises; it returns true exactly when the
    GET was answered 200 and the guarded suite ran to its end; a GET
    answered with another status prints that status code and gives false;
    every exception raised in the guarded suite is printed with its message
    and gives false. *)
Theorem get_flow_status_never_raises (w : env) (tr : list event) :
  (exists b tr', get_flow_status w tr = (Return b, tr'))
  /\ (fst (get_flow_status w tr) = Return true <->
      exists g b tr1,
        net w (calls_made tr) = Responded g /\ status_code g = 200 /\
        get_flow_status_try w tr = (Return b, tr1))
  /\ (forall g,
        net w (calls_made tr) = Responded g -> status_code g <> 200 ->
        get_flow_status w tr =
          (Return false,
           (tr ++ [Sent (Get "http://localhost:1880/flows");
                   Printed ("Failed to get flows: "
                            ++ str_of_Z (status_code g))])%list))
  /\ (forall e tr1,
        get_flow_status_try w tr = (Raise e, tr1) ->
        get_flow_status w tr =
          (Return false,
           (tr1 ++ [Printed ("Error getting flow status: " ++ exn_str e)])%list)).
Proof.
  split; [|split; [|split]].
  - destruct (get_flow_status w tr) as [r tr'] eqn:Hrun.
    apply get_flow_status_events in Hrun as (b & out & -> & _ & _). eauto.
  - rewrite get_flow_status_run, get_flow_status_try_run.
    destruct (net w (calls_made tr)) as [msg|g].
    { split; [done|]. by intros (? & ? & ? & ? & _). }
    destruct (status_code g =? 200) eqn:Hg.
    2:{ split; [done|]. intros (g' & ? & ? & [= <-] & Hg' & _).
        rewrite Hg' in Hg. done. }
    apply Z.eqb_eq in Hg.
    destruct (flows_of g) as [flows|e].
    2:{ split; [done|]. by intros (? & ? & ? & _ & _ & ?). }
    destruct (items_of flows) as [[n nodes]|e].
    2:{ split; [done|]. by intros (? & ? & ? & _ & _ & ?). }
    destruct (for_each nodes print_node w _) as [[[]|e] tr2].
    + split; [|done]. intros _. by exists g, true, tr2.
    + split; [done|]. by intros (? & ? & ? & _ & _ & ?).
  - intros g Hget Hg. apply Z.eqb_neq in Hg.
    by rewrite get_flow_status_run, get_flow_status_try_run, Hget, Hg.
  - intros e tr1 Htry. by rewrite get_flow_status_run, Htry.
Qed.

(** C10: when the GET is answered 200 and the [flows] list holds a
    descriptor with a [name] field and no [type] field, the loop reaches the
    first such descriptor after printing the lines of those before it, the
    lookup of [type] raises [KeyError] there, and [get_flow_status] prints
    that error and returns false. *)
Theorem get_flow_status_missing_type (w : env) (tr : list event) (g : response)
    (body : gmap string pyval) (ds : list (gmap string pyval))
    (bad : gmap string pyval) :
  net w (calls_made tr) = Responded g ->
  status_code g = 200 ->
  json g = Json (PDict body) ->
  body !! "flows" = Some (PList (List.map PDict ds)) ->
  In bad ds -> is_Some (bad !! "name") -> bad !! "type" = None ->
  exists pre first rest,
    ds = (pre ++ first :: rest)%list /\
    Forall (fun d => lacks_type d = false) pre /\
    is_Some (first !! "name") /\ first !! "type" = None /\
    let shown :=
      (tr ++ Sent (Get "http://localhost:1880/flows")
          :: Printed ("Number of nodes: " ++ str_of_Z (Z.of_nat (length ds)))
          :: flat_map (descriptor_lines w) pre)%list in
    get_flow_status_try w tr = (Raise (mk_exn KeyError "'type'"), shown) /\
    get_flow_status w tr =
      (Return false,
       (shown ++ [Printed "Error getting flow status: 'type'"])%list).
Proof.
  intros Hget Hg Hjson Hflows Hin Hname Htype.
  destruct (first_lacking_type ds) as (pre & first & rest & Hds & Hpre & Hfirst).
  { apply List.Exists_exists. exists bad. split; [done|].
    unfold lacks_type. by rewrite !bool_decide_eq_true_2. }
  exists pre, first, rest. subst ds.
  unfold lacks_type in Hfirst. apply andb_true_iff in Hfirst as [Hn Ht].
  apply bool_decide_eq_true in Hn, Ht.
  assert (get_flow_status_try w tr =
            (Raise (mk_exn KeyError "'type'"),
             (tr ++ Sent (Get flows_url)
                 :: count_line (length (pre ++ first :: rest))
                 :: flat_map (descriptor_lines w) pre)%list)) as Htry.
  { rewrite get_flow_status_try_run, Hget, Hg. unfold flows_of.
    rewrite Hjson, Hflows. simpl. rewrite length_map.
    rewrite for_each_lacks_type; [by rewrite <- app_assoc|done|].
    unfold lacks_type. by rewrite !bool_decide_eq_true_2. }
  repeat split; try done.
  by rewrite get_flow_status_run, Htry.
Qed.

(** ** Instances of the [get_flow_status] theorems *)

(** The specification's example: a tab named Main and an inject node named
    trigger1. *)
Lemma get_flow_status_summary_witness :
  default (PList []) (flows_body [tab_main; inject_trigger1] !! "flows") =
    PList (List.map PDict [tab_main; inject_trigger1])
  /\ Forall (fun d => lacks_type d = false) [tab_main; inject_trigger1]
  /\ get_flow_status (world_flows [tab_main; inject_trigger1]) [] =
       (Return true,
        [Sent (Get "http://localhost:1880/flows");
         Printed "Number of nodes: 2";
         Printed "Flow tab: Main";
         Printed "Node: trigger1 (Type: inject)"]).
Proof.
  split; [reflexivity|]. split; [by repeat constructor|].
  apply (get_flow_status_summary (world_flows [tab_main; inject_trigger1]) []
           (ok_response (PDict (flows_body [tab_main; inject_trigger1])))
           (flows_body [tab_main; inject_trigger1])
           [tab_main; inject_trigger1]);
    [reflexivity|reflexivity|reflexivity|reflexivity|by repeat constructor].
Defined.

Lemma get_flow_status_never_raises_witness :
  status_code (error_response 404 "Not Found") <> 200
  /\ get_flow_status (world_of Missing [Responded (error_response 404 "Not Found")]) [] =
       (Return false,
        [Sent (Get "http://localhost:1880/flows");
         Printed "Failed to get flows: 404"]).
Proof.
  split; [discriminate|].
  apply (proj1 (proj2 (proj2 (get_flow_status_never_raises
           (world_of Missing [Responded (error_response 404 "Not Found")]) [])))
           (error_response 404 "Not Found"));
    [reflexivity|discriminate].
Defined.

Lemma get_flow_status_missing_type_witness :
  In untyped_node [tab_main; inject_trigger1; untyped_node; tab_main]
  /\ exists pre first rest,
       [tab_main; inject_trigger1; untyped_node; tab_main] =
         (pre ++ first :: rest)%list /\
       Forall (fun d => lacks_type d = false) pre /\
       is_Some (first !! "name") /\ first !! "type" = None /\
       let shown :=
         ([] ++ Sent (Get "http://localhost:1880/flows")
             :: Printed ("Number of nodes: " ++ str_of_Z (Z.of_nat
                  (length [tab_main; inject_trigger1; untyped_node; tab_main])))
             :: flat_map
                  (descriptor_lines
                     (world_flows [tab_main; inject_trigger1; untyped_node; tab_main]))
                  pre)%list in
       get_flow_status_try
           (world_flows [tab_main; inject_trigger1; untyped_node; tab_main]) [] =
         (Raise (mk_exn KeyError "'type'"), shown) /\
       get_flow_status
           (world_flows [tab_main; inject_trigger1; untyped_node; tab_main]) [] =
         (Return false,
          (shown ++ [Printed "Error getting flow status: 'type'"])%list).
Proof.
  split; [simpl; auto|].
  apply (get_flow_status_missing_type
           (world_flows [tab_main; inject_trigger1; untyped_node; tab_main]) []
           (ok_response (PDict (flows_body
              [tab_main; inject_trigger1; untyped_node; tab_main])))
           (flows_body [tab_main; inject_trigger1; untyped_node; tab_main])
           [tab_main; inject_trigger1; untyped_node; tab_main] untyped_node);
    [reflexivity|reflexivity|reflexivity|reflexivity|simpl; auto
    |by exists (PStr "orphan")|reflexivity].
Defined.

(** The run of that last world, written out. *)
Example get_flow_status_cut_short :
  get_flow_status
      (world_flows [tab_main; inject_trigger1; untyped_node; tab_main]) [] =
    (Return false,
     [Sent (Get flows_url); Printed "Number of nodes: 4";
      Printed "Flow tab: Main"; Printed "Node: trigger1 (Type: inject)";
      Printed "Error getting flow status: 'type'"]).
Proof. vm_compute. reflexivity. Qed.

(** ** The entry point *)

(** C7: the entry point prints the start banner and runs [deploy_flow] once
    from there.  When that returns true it prints, sleeps 5 seconds (the only
    sleep of the run), prints, runs [get_flow_status] once (one GET and
    printed lines) and, whatever that returns, prints the three closing
    lines.  When [deploy_flow] returns false it prints the failure banner
    and nothing else: no sleep, no status query.  An exception of
    [deploy_flow] ends the run. *)
Theorem main_orchestration (w : env) (tr : list event) :
  let started := (tr ++ [Printed "Deploying test flow to Node-RED..."])%list in
  match deploy_flow w started with
  | (Return true, tr1) =>
      let slept :=
        (tr1 ++ [Printed "Waiting for flow to initialize..."; Slept 5;
                 Printed "Checking flow status..."])%list in
      exists status tr2 out,
        get_flow_status w slept = (Return status, tr2) /\
        tr2 = (slept ++ out)%list /\ never_slept out /\ calls_made out = 1%nat /\
        main w tr =
          (Return tt,
           (tr2 ++
            [Printed (newline ++ "Flow deployed successfully! You can now view the results in Node-RED's debug panel.");
             Printed "Access Node-RED at: http://localhost:1880";
             Printed "Make sure to click the 'Deploy' button in the Node-RED UI to activate the flow."])%list)
  | (Return false, tr1) =>
      main w tr = (Return tt, (tr1 ++ [Printed "Failed to deploy flow."])%list)
  | (Raise e, tr1) => main w tr = (Raise e, tr1)
  end
  /\ exists out, snd (deploy_flow w started) = (started ++ out)%list
                 /\ never_slept out.
Proof.
  intros started. split.
  - unfold main. py_run. fold started.
    destruct (deploy_flow w started) as [[[]|e] tr1]; py_run; try reflexivity.
    rewrite <- !app_assoc. simpl app.
    destruct (get_flow_status w _) as [r tr2] eqn:Hstatus.
    pose proof Hstatus as (status & out & -> & -> & Hout)%get_flow_status_events.
    py_run. eexists status, _, _. repeat split.
    + by constructor; [|apply only_printed_never_slept].
    + unfold calls_made. simpl. f_equal. by apply only_printed_no_calls.
    + by rewrite <- !app_assoc.
  - destruct (deploy_flow w started) as [r tr1] eqn:Hrun.
    by apply deploy_flow_never_sleeps in Hrun.
Qed.

(** A whole run: deploy accepted, then the status query answered 404. *)
Example main_run_accepted :
  main (world_of good_file
          [Responded (rev_response (PStr "abc")); Responded (ok_response PNone);
           Responded (error_response 404 "Not Found")]) [] =
    (Return tt,
     [Printed "Deploying test flow to Node-RED...";
      Sent (Get flows_url);
      post_flows sample_nodes (PStr "abc");
      Printed "Flow deployed successfully!";
      Printed "Waiting for flow to initialize...";
      Slept 5;
      Printed "Checking flow status...";
      Sent (Get flows_url);
      Printed "Failed to get flows: 404";
      Printed (newline ++ "Flow deployed successfully! You can now view the results in Node-RED's debug panel.");
      Printed "Access Node-RED at: http://localhost:1880";
      Printed "Make sure to click the 'Deploy' button in the Node-RED UI to activate the flow."]).
Proof. vm_compute. reflexivity. Qed.

(** A whole run: the deploy is refused. *)
Example main_run_refused :
  main world_post_500 [] =
    (Return tt,
     [Printed "Deploying test flow to Node-RED...";
      Sent (Get flows_url);
      post_flows sample_nodes (PStr "abc");
      Printed "Failed to deploy flow: 500";
      Printed "Internal Server Error";
      Printed "Failed to deploy flow."]).
Proof. vm_compute. reflexivity. Qed.

(** * Further properties of the script *)

(** X1: [deploy_flow] returns true exactly when the flow file holds JSON,
    the GET is answered (with a status other than 200, or with 200 and a
    JSON object as body), and the POST is answered 200. *)
Theorem deploy_flow_true_iff (w : env) (tr : list event) :
  (exists tr', deploy_flow w tr = (Return true, tr'))
  <->
  (exists nodes g p,
      fs w "test-flow.json" = Readable (Json nodes) /\
      net w (calls_made tr) = Responded g /\
      (status_code g <> 200 \/ exists d, json g = Json (PDict d)) /\
      net w (S (calls_made tr)) = Responded p /\
      status_code p = 200).
Proof.
  rewrite deploy_flow_run. split.
  - intros [tr' Hrun].
    destruct (fs w "test-flow.json") as [| |[msg|nodes]]; try discriminate.
    rewrite deploy_flow_try_run in Hrun.
    destruct (net w (calls_made tr)) as [msg|g]; [discriminate|].
    destruct (revision_of g) as [revision|e] eqn:Hrev; [|discriminate].
    destruct (net w (S (calls_made tr))) as [msg|p]; [discriminate|].
    destruct (status_code p =? 200) eqn:Hp; [|discriminate].
    exists nodes, g, p. repeat split; try done; [|by apply Z.eqb_eq].
    unfold revision_of in Hrev.
    destruct (status_code g =? 200) eqn:Hg; [|left; by apply Z.eqb_neq].
    right. destruct (json g) as [msg|[]]; try discriminate. eauto.
  - intros (nodes & g & p & -> & Hget & Hbody & Hpost & Hp).
    rewrite deploy_flow_try_run, Hget, Hpost, Hp. simpl.
    assert (exists revision, revision_of g = Return revision) as [rev ->].
    { unfold revision_of. destruct Hbody as [Hg|[d Hd]].
      - apply Z.eqb_neq in Hg. rewrite Hg. eauto.
      - destruct (status_code g =? 200); [rewrite Hd|]; eauto. }
    eauto.
Qed.

(** X2: a GET answered 200 with a JSON body that is not an object (a list,
    a string, a number, null) aborts the deploy: the lookup of [get] on it
    raises [AttributeError], [deploy_flow] prints it and returns false, and
    no POST is made. *)
Theorem deploy_flow_get_body_not_object (w : env) (tr : list event)
    (nodes : pyval) (g : response) (v : pyval) :
  fs w "test-flow.json" = Readable (Json nodes) ->
  net w (calls_made tr) = Responded g ->
  status_code g = 200 ->
  json g = Json v ->
  (forall d, v <> PDict d) ->
  deploy_flow w tr =
    (Return false,
     (tr ++ [Sent (Get "http://localhost:1880/flows");
             Printed ("Error deploying flow: '" ++ type_name v
                      ++ "' object has no attribute 'get'")])%list).
Proof.
  intros Hfs Hget Hg Hjson Hv.
  rewrite deploy_flow_run, Hfs, deploy_flow_try_run, Hget.
  unfold revision_of. rewrite Hg, Hjson. simpl.
  destruct v; try (by rewrite <- app_assoc). by destruct (Hv d).
Qed.

(** X3: when the GET itself fails (connection refused, timeout),
    [deploy_flow] prints the error and returns false without trying the
    POST. *)
Theorem deploy_flow_get_unreachable (w : env) (tr : list event)
    (nodes : pyval) (msg : string) :
  fs w "test-flow.json" = Readable (Json nodes) ->
  net w (calls_made tr) = Failed msg ->
  deploy_flow w tr =
    (Return false,
     (tr ++ [Sent (Get "http://localhost:1880/flows");
             Printed ("Error deploying flow: " ++ msg)])%list).
Proof.
  intros Hfs Hget.
  rewrite deploy_flow_run, Hfs, deploy_flow_try_run, Hget.
  by rewrite <- app_assoc.
Qed.

(** X4: when the GET phase is passed and the POST itself fails,
    [deploy_flow] has sent the flows of the file, prints the error and
    returns false. *)
Theorem deploy_flow_post_unreachable (w : env) (tr : list event)
    (nodes : pyval) (g : response) (msg : string) :
  fs w "test-flow.json" = Readable (Json nodes) ->
  net w (calls_made tr) = Responded g ->
  (status_code g <> 200 \/ exists d, json g = Json (PDict d)) ->
  net w (S (calls_made tr)) = Failed msg ->
  exists m : gmap string pyval,
    m !! "flows" = Some nodes /\
    deploy_flow w tr =
      (Return false,
       (tr ++ [Sent (Get "http://localhost:1880/flows");
               Sent (Post "http://localhost:1880/flows" (PDict m)
                       {[ "Content-Type" := "application/json" ]});
               Printed ("Error deploying flow: " ++ msg)])%list).
Proof.
  intros Hfs Hget Hbody Hpost.
  rewrite deploy_flow_run, Hfs, deploy_flow_try_run, Hget, Hpost.
  assert (exists revision, revision_of g = Return revision) as [rev ->].
  { unfold revision_of. destruct Hbody as [Hg|[d Hd]].
    - apply Z.eqb_neq in Hg. rewrite Hg. eauto.
    - destruct (status_code g =? 200); [rewrite Hd|]; eauto. }
  exists (payload nodes rev). split.
  - unfold payload. destruct (truthy rev).
    + by rewrite lookup_insert_ne, lookup_singleton_eq.
    + by rewrite lookup_singleton_eq.
  - by rewrite <- app_assoc.
Qed.

(** X5: every POST that [deploy_flow] sends goes to the flows endpoint with
    the JSON content type; its body is a dict that carries the file's
    contents unchanged under [flows], has no key besides [flows] and [rev],
    and a [rev] it carries is the very value of the GET body's [rev]. *)
Theorem deploy_flow_post_shape (w : env) (tr : list event) (nodes : pyval)
    (r : outcome bool) (out : list event) (url : string) (body : pyval)
    (headers : gmap string string) :
  fs w "test-flow.json" = Readable (Json nodes) ->
  deploy_flow w tr = (r, (tr ++ out)%list) ->
  In (Sent (Post url body headers)) out ->
  url = "http://localhost:1880/flows"
  /\ headers = {[ "Content-Type" := "application/json" ]}
  /\ exists m : gmap string pyval,
       body = PDict m
       /\ m !! "flows" = Some nodes
       /\ (forall k, is_Some (m !! k) -> k = "flows" \/ k = "rev")
       /\ (forall v, m !! "rev" = Some v ->
             exists g d,
               net w (calls_made tr) = Responded g /\ status_code g = 200 /\
               json g = Json (PDict d) /\ d !! "rev" = Some v).
Proof.
  intros Hfs Hrun Hin.
  pose proof (deploy_flow_events _ _ _ _ _ Hfs Hrun) as Hout.
  destruct (net w (calls_made tr)) as [msg|g].
  { subst out. destruct Hin as [?|[?|[]]]; discriminate. }
  destruct (revision_of g) as [revision|e] eqn:Hrev.
  2:{ subst out. destruct Hin as [?|[?|[]]]; discriminate. }
  destruct Hout as (tail & -> & Htail).
  destruct Hin as [Hin|[Hin|Hin]]; [discriminate Hin| |].
  2:{ unfold only_printed in Htail. rewrite List.Forall_forall in Htail.
      by apply Htail in Hin. }
  unfold post_flows in Hin. injection Hin as <- <- <-.
  split; [done|]. split; [done|].
  exists (payload nodes revision). split; [done|].
  unfold payload. destruct (truthy revision) eqn:Htruthy.
  - split; [by rewrite lookup_insert_ne, lookup_singleton_eq|]. split.
    + intros k [x Hk]. destruct (decide (k = "rev")) as [->|Hne]; [by right|].
      rewrite lookup_insert_ne in Hk by done.
      apply lookup_singleton_Some in Hk as [<- _]. by left.
    + intros v. rewrite lookup_insert_eq. intros [= <-].
      destruct (proj2 (revision_of_truthy g)) as (d & v & Hg & Hj & Hd & Hv);
        [eauto|].
      exists g, d. repeat split; try done.
      unfold revision_of in Hrev.
      rewrite Hg, Hj, Hd in Hrev. simpl in Hrev. by injection Hrev as <-.
  - split; [by rewrite lookup_singleton_eq|]. split.
    + intros k [x Hk]. apply lookup_singleton_Some in Hk as [<- _]. by left.
    + intros v. by rewrite lookup_singleton_ne.
Qed.

(** X6: [deploy_flow] never sleeps and makes at most two HTTP calls, the
    first of which is the GET of the flows endpoint; when it raises, it has
    printed nothing and called nothing. *)
Theorem deploy_flow_call_discipline (w : env) (tr : list event) :
  exists out,
    snd (deploy_flow w tr) = (tr ++ out)%list
    /\ never_slept out
    /\ (out = [] \/
        exists rest, out = Sent (Get "http://localhost:1880/flows") :: rest
                     /\ (calls_made rest <= 1)%nat)
    /\ (forall e, fst (deploy_flow w tr) = Raise e -> out = []).
Proof.
  rewrite deploy_flow_run.
  destruct (fs w "test-flow.json") as [| |[msg|nodes]].
  1-3: exists []; rewrite app_nil_r; repeat split; by (constructor || left).
  rewrite deploy_flow_try_run.
  destruct (net w (calls_made tr)) as [msg|g].
  { rewrite <- app_assoc. eexists. split; [done|]. split; [by repeat constructor|].
    split; [|done]. right. eexists. split; [done|]. unfold calls_made; simpl; lia. }
  destruct (revision_of g) as [revision|e].
  2:{ rewrite <- app_assoc. eexists. split; [done|].
      split; [by repeat constructor|].
      split; [|done]. right. eexists. split; [done|].
      unfold calls_made; simpl; lia. }
  destruct (net w (S (calls_made tr))) as [msg|p].
  { rewrite <- app_assoc. eexists. split; [done|].
    split; [by repeat constructor|].
    split; [|done]. right. eexists. split; [done|].
    unfold calls_made; simpl; lia. }
  destruct (status_code p =? 200); eexists; (split; [done|]);
    (split; [by repeat constructor|]); (split; [|done]); right; eexists;
    (split; [done|]); unfold calls_made; simpl; lia.
Qed.

(** X7: [get_flow_status] is read-only and never silent: every run makes
    exactly one HTTP call, the GET of the flows endpoint, then only prints,
    and prints at least one line. *)
Theorem get_flow_status_read_only (w : env) (tr : list event) :
  exists b out,
    get_flow_status w tr =
      (Return b, (tr ++ Sent (Get "http://localhost:1880/flows") :: out)%list)
    /\ only_printed out /\ out <> [].
Proof.
  rewrite get_flow_status_run, get_flow_status_try_run.
  destruct (net w (calls_made tr)) as [msg|g].
  { rewrite <- app_assoc. eexists _, _. split; [done|].
    split; [by repeat constructor|done]. }
  destruct (status_code g =? 200).
  2:{ eexists _, _. split; [done|]. split; [by repeat constructor|done]. }
  destruct (flows_of g) as [flows|e].
  2:{ rewrite <- app_assoc. eexists _, _. split; [done|].
      split; [by repeat constructor|done]. }
  destruct (items_of flows) as [[n nodes]|e].
  2:{ rewrite <- app_assoc. eexists _, _. split; [done|].
      split; [by repeat constructor|done]. }
  destruct (for_each nodes print_node w _) as [[[]|e] tr2] eqn:Hloop;
    apply for_each_events in Hloop as (out & -> & Hout);
    rewrite <- ?app_assoc; eexists _, _; (split; [reflexivity|]).
  - split; [by constructor|done].
  - split; [|done]. constructor; [done|].
    apply Forall_app. split; [done|by repeat constructor].
Qed.

Lemma print_node_not_dict (w : env) (tr : list event) (v : pyval) :
  is_dict v = false ->
  print_node v w tr =
    (Raise (mk_exn AttributeError
              ("'" ++ type_name v ++ "' object has no attribute 'get'")), tr).
Proof. by destruct v. Qed.

Lemma print_node_returns (w : env) (tr : list event) (v : pyval) :
  (exists tr', print_node v w tr = (Return tt, tr')) <-> node_ok v = true.
Proof.
  destruct v as [| | | | | |d]; try (split; [intros [? [=]]|done]).
  rewrite print_node_dict. simpl. destruct (lacks_type d); simpl.
  - split; [intros [? [=]]|done].
  - split; eauto.
Qed.

Lemma for_each_returns (w : env) (nodes : list pyval) :
  forall tr : list event,
    (exists tr', for_each nodes print_node w tr = (Return tt, tr'))
    <-> forallb node_ok nodes = true.
Proof.
  induction nodes as [|v nodes IH]; intros tr; simpl.
  - split; eauto.
  - rewrite run_bind, andb_true_iff, <- (print_node_returns w tr v).
    destruct (print_node v w tr) as [[[]|e] tr1].
    + rewrite IH. split; [eauto|]. by intros [_ ?].
    + split; [intros [? [=]]|]. by intros [[? [=]] _].
Qed.

Lemma node_ok_descriptors (l : list pyval) :
  forallb node_ok l = true <->
  exists ds, l = List.map PDict ds /\ Forall (fun d => lacks_type d = false) ds.
Proof.
  induction l as [|v l IH]; simpl.
  - split; [|done]. intros _. by exists [].
  - rewrite andb_true_iff, IH. split.
    + intros [Hv (ds & -> & Hds)]. destruct v as [| | | | | |d]; try done.
      exists (d :: ds). split; [done|]. constructor; [|done].
      simpl in Hv. by destruct (lacks_type d).
    + intros ([|d ds] & Heq & Hds); [done|]. injection Heq as -> ->.
      apply Forall_cons in Hds as [Hd Hds]. split; [|eauto].
      simpl. by rewrite Hd.
Qed.

(** X8: [get_flow_status] returns true exactly when the GET is answered
    200 with a JSON object whose [flows] (an empty list when absent) is a
    list of objects none of which has a name without a type, or is the empty
    string, or is the empty object. *)
Theorem get_flow_status_true_iff (w : env) (tr : list event) :
  (exists tr', get_flow_status w tr = (Return true, tr'))
  <->
  (exists g body,
      net w (calls_made tr) = Responded g /\ status_code g = 200 /\
      json g = Json (PDict body) /\
      (default (PList []) (body !! "flows") = PStr ""
       \/ default (PList []) (body !! "flows") = PDict ∅
       \/ exists ds,
            default (PList []) (body !! "flows") = PList (List.map PDict ds)
            /\ Forall (fun d => lacks_type d = false) ds)).
Proof.
  rewrite get_flow_status_run, get_flow_status_try_run. split.
  - intros [tr' Hrun].
    destruct (net w (calls_made tr)) as [msg|g]; [discriminate|].
    destruct (status_code g =? 200) eqn:Hg; [|discriminate].
    apply Z.eqb_eq in Hg. unfold flows_of in Hrun.
    destruct (json g) as [msg|[| | | | | |body]] eqn:Hjson; try discriminate.
    exists g, body. do 3 (split; [done|]).
    destruct (items_of _) as [[n nodes]|e] eqn:Hitems; [|discriminate].
    destruct (for_each nodes print_node w _) as [[[]|e] tr2] eqn:Hloop;
      [|discriminate].
    assert (forallb node_ok nodes = true) as Hok
      by (eapply for_each_returns; eauto).
    destruct (default (PList []) (body !! "flows")) as [| | | |s|l|d];
      try discriminate; simpl in Hitems; injection Hitems as <- <-.
    + left. destruct s; [done|discriminate].
    + right. right. apply node_ok_descriptors in Hok as (ds & -> & Hds).
      by exists ds.
    + right. left. destruct (map_to_list d) as [|[k x] kvs] eqn:Hd;
        [|discriminate]. by apply map_to_list_empty_iff in Hd as ->.
  - intros (g & body & -> & Hg & Hjson & Hflows).
    rewrite Hg. unfold flows_of. rewrite Hjson. simpl.
    destruct Hflows as [->|[->|(ds & -> & Hds)]]; simpl.
    + eauto.
    + rewrite map_to_list_empty. simpl. eauto.
    + rewrite for_each_descriptors by done. eauto.
Qed.

Lemma never_slept_filter (out : list event) :
  never_slept out -> List.filter is_slept out = [].
Proof.
  induction 1 as [|ev out Hev Hout IH]; simpl; [done|]. by rewrite Hev.
Qed.

Lemma deploy_flow_calls (w : env) (tr : list event) (r : outcome bool)
    (tr1 : list event) :
  deploy_flow w tr = (r, tr1) ->
  exists out,
    tr1 = (tr ++ out)%list /\ never_slept out /\
    (if r is Return true then calls_made out = 2%nat
     else (calls_made out <= 2)%nat).
Proof.
  rewrite deploy_flow_run.
  destruct (fs w "test-flow.json") as [| |[msg|nodes]].
  1-3: intros [= <- <-]; exists []; rewrite app_nil_r;
       repeat split; [constructor|unfold calls_made; simpl; lia].
  rewrite deploy_flow_try_run.
  destruct (net w (calls_made tr)) as [msg|g].
  { rewrite <- app_assoc. intros [= <- <-]. eexists. split; [done|].
    split; [by repeat constructor|unfold calls_made; simpl; lia]. }
  destruct (revision_of g) as [revision|e].
  2:{ rewrite <- app_assoc. intros [= <- <-]. eexists. split; [done|].
      split; [by repeat constructor|unfold calls_made; simpl; lia]. }
  destruct (net w (S (calls_made tr))) as [msg|p].
  { rewrite <- app_assoc. intros [= <- <-]. eexists. split; [done|].
    split; [by repeat constructor|unfold calls_made; simpl; lia]. }
  destruct (status_code p =? 200); intros [= <- <-]; eexists;
    (split; [done|]);
    (split; [by repeat constructor|unfold calls_made; simpl; lia]).
Qed.

(** X9: the entry point ends with an exception exactly when the flow file
    is missing, unreadable or not JSON, and then it has printed the start
    banner only; with a flow file that holds JSON it always runs to its end
    and prints something after the banner. *)
Theorem main_file_errors (w : env) (tr : list event) :
  let started := (tr ++ [Printed "Deploying test flow to Node-RED..."])%list in
  match fs w "test-flow.json" with
  | Missing =>
      main w tr =
        (Raise (mk_exn FileNotFoundError
                  "[Errno 2] No such file or directory: 'test-flow.json'"),
         started)
  | Unreadable =>
      main w tr =
        (Raise (mk_exn PermissionError
                  "[Errno 13] Permission denied: 'test-flow.json'"), started)
  | Readable (NotJson msg) =>
      main w tr = (Raise (mk_exn JSONDecodeError msg), started)
  | Readable (Json _) =>
      exists out, main w tr = (Return tt, (started ++ out)%list) /\ out <> []
  end.
Proof.
  intros started. unfold main. py_run. fold started.
  destruct (deploy_flow w started) as [r tr1] eqn:Hrun.
  pose proof Hrun as Hrun'. rewrite deploy_flow_run in Hrun'.
  destruct (fs w "test-flow.json") as [| |[msg|nodes]];
    try (by injection Hrun' as <- <-).
  destruct (deploy_flow_calls _ _ _ _ Hrun) as (out1 & -> & _).
  assert (exists b, r = Return b) as [b ->].
  { destruct (deploy_flow_try nodes w started) as [[b|e] tr0];
      injection Hrun' as <- _; eauto. }
  destruct b; py_run.
  - destruct (get_flow_status w _) as [r2 tr2] eqn:Hstatus.
    apply get_flow_status_events in Hstatus as (b' & out & -> & -> & _).
    py_run. rewrite <- !app_assoc. eexists. split; [reflexivity|].
    intros [_ Hnil]%app_eq_nil. discriminate Hnil.
  - rewrite <- !app_assoc. eexists. split; [reflexivity|].
    intros [_ Hnil]%app_eq_nil. discriminate Hnil.
Qed.

Lemma filter_slept_app (l1 l2 : list event) :
  List.filter is_slept (l1 ++ l2)%list
  = (List.filter is_slept l1 ++ List.filter is_slept l2)%list.
Proof. apply List.filter_app. Qed.

(** X10: a run of the entry point either sleeps once, for 5 seconds, and
    makes exactly three HTTP calls, or does not sleep and makes at most
    two. *)
Theorem main_budget (w : env) (tr : list event) :
  exists out,
    snd (main w tr) = (tr ++ out)%list
    /\ ((List.filter is_slept out = [] /\ (calls_made out <= 2)%nat)
        \/ (List.filter is_slept out = [Slept 5] /\ calls_made out = 3%nat)).
Proof.
  unfold main. py_run.
  destruct (deploy_flow w _) as [r tr1] eqn:Hrun.
  destruct (deploy_flow_calls _ _ _ _ Hrun) as (out1 & -> & Hquiet & Hcalls).
  apply never_slept_filter in Hquiet.
  destruct r as [[]|e]; py_run.
  - destruct (get_flow_status w _) as [r2 tr2] eqn:Hstatus.
    apply get_flow_status_events in Hstatus as (b' & out & -> & -> & Hout).
    py_run. rewrite <- !app_assoc. eexists. split; [reflexivity|]. right.
    pose proof (only_printed_no_calls _ Hout) as Hnone.
    apply only_printed_never_slept, never_slept_filter in Hout.
    change (Sent (Get flows_url) :: out)%list
      with ([Sent (Get flows_url)] ++ out)%list.
    rewrite !filter_slept_app, !calls_made_app, Hquiet, Hcalls, Hout, Hnone.
    unfold calls_made. simpl. done.
  - rewrite <- !app_assoc. eexists. split; [reflexivity|]. left.
    rewrite !filter_slept_app, !calls_made_app, Hquiet.
    unfold calls_made at 1 3. simpl. split; [done|lia].
  - rewrite <- !app_assoc. eexists. split; [reflexivity|]. left.
    rewrite !filter_slept_app, !calls_made_app, Hquiet.
    unfold calls_made at 1. simpl. split; [done|lia].
Qed.

Lemma for_each_app (w : env) (l1 l2 : list pyval) :
  forall tr tr1 : list event,
    for_each l1 print_node w tr = (Return tt, tr1) ->
    for_each (l1 ++ l2)%list print_node w tr = for_each l2 print_node w tr1.
Proof.
  induction l1 as [|v l1 IH]; intros tr tr1; simpl.
  - by intros [= <-].
  - rewrite !run_bind.
    destruct (print_node v w tr) as [[[]|e] tr0]; [apply IH|discriminate].
Qed.

(** X11: when the [flows] list holds an item that is not an object after
    well-formed descriptors, [get_flow_status] prints the count of all items
    and the lines of the descriptors before it, then the [AttributeError] of
    that item, and returns false; the items after it are not looked at. *)
Theorem get_flow_status_non_object_descriptor (w : env) (tr : list event)
    (g : response) (body : gmap string pyval)
    (pre : list (gmap string pyval)) (v : pyval) (rest : list pyval) :
  net w (calls_made tr) = Responded g ->
  status_code g = 200 ->
  json g = Json (PDict body) ->
  body !! "flows" = Some (PList (List.map PDict pre ++ v :: rest)) ->
  Forall (fun d => lacks_type d = false) pre ->
  (forall d, v <> PDict d) ->
  get_flow_status w tr =
    (Return false,
     (tr ++ Sent (Get "http://localhost:1880/flows")
         :: Printed ("Number of nodes: "
                     ++ str_of_Z (Z.of_nat (length pre + 1 + length rest)))
         :: flat_map (descriptor_lines w) pre
         ++ [Printed ("Error getting flow status: '" ++ type_name v
                      ++ "' object has no attribute 'get'")])%list).
Proof.
  intros Hget Hg Hjson Hflows Hpre Hv.
  rewrite get_flow_status_run, get_flow_status_try_run, Hget, Hg.
  unfold flows_of. rewrite Hjson, Hflows. simpl.
  erewrite for_each_app by (by apply for_each_descriptors).
  simpl. rewrite run_bind, print_node_not_dict.
  2:{ destruct v; try done. by destruct (Hv d). }
  rewrite length_app, length_map. simpl.
  replace (length pre + S (length rest))%nat
    with (length pre + 1 + length rest)%nat by lia.
  by rewrite <- !app_assoc.
Qed.

(** X12: when [flows] is present but is null, a boolean or a number,
    [len] raises before anything is printed: [get_flow_status] prints that
    [TypeError] only (no count line) and returns false. *)
Theorem get_flow_status_flows_not_sized (w : env) (tr : list event)
    (g : response) (body : gmap string pyval) (v : pyval) :
  net w (calls_made tr) = Responded g ->
  status_code g = 200 ->
  json g = Json (PDict body) ->
  body !! "flows" = Some v ->
  is_sized v = false ->
  get_flow_status w tr =
    (Return false,
     (tr ++ [Sent (Get "http://localhost:1880/flows");
             Printed ("Error getting flow status: object of type '"
                      ++ type_name v ++ "' has no len()")])%list).
Proof.
  intros Hget Hg Hjson Hflows Hv.
  rewrite get_flow_status_run, get_flow_status_try_run, Hget, Hg.
  unfold flows_of. rewrite Hjson, Hflows. simpl.
  destruct v; try discriminate Hv; simpl; by rewrite <- app_assoc.
Qed.

(** X13: a descriptor whose type is [tab] gives exactly one tab line,
    whether or not it has a name; [Unnamed] stands in only for an absent
    label, a label that is present (null included) is printed as it is. *)
Theorem print_node_tab (w : env) (tr : list event) (d : gmap string pyval) :
  d !! "type" = Some (PStr "tab") ->
  print_node (PDict d) w tr =
    (Return tt,
     (tr ++ [Printed ("Flow tab: "
                      ++ match d !! "label" with
                         | Some label => format w label
                         | None => "Unnamed"
                         end)])%list).
Proof.
  intros Htype. rewrite print_node_dict. unfold lacks_type, descriptor_lines.
  rewrite Htype. rewrite (bool_decide_eq_false_2 (Some _ = None)) by done.
  rewrite andb_false_r. simpl. by destruct (d !! "label").
Qed.

Lemma print_node_one_line (w : env) (node : pyval) (tr : list event)
    (r : outcome unit) (tr' : list event) :
  print_node node w tr = (r, tr') ->
  exists out, tr' = (tr ++ out)%list /\ only_printed out /\ (length out <= 1)%nat.
Proof.
  destruct node as [| | | | | |d].
  1-6: rewrite print_node_not_dict by done; intros [= <- <-];
       exists []; rewrite app_nil_r; repeat split; [constructor|simpl; lia].
  rewrite print_node_dict. destruct (lacks_type d); intros [= <- <-].
  - exists []. rewrite app_nil_r. repeat split; [constructor|simpl; lia].
  - eexists. split; [done|]. split; [apply descriptor_lines_printed|].
    unfold descriptor_lines. destruct (py_eq_str _ _); [simpl; lia|].
    destruct (d !! "name"); simpl; lia.
Qed.

Lemma for_each_line_bound (w : env) (nodes : list pyval) :
  forall (tr : list event) (r : outcome unit) (tr' : list event),
    for_each nodes print_node w tr = (r, tr') ->
    exists out,
      tr' = (tr ++ out)%list /\ only_printed out /\
      (length out <= length nodes)%nat.
Proof.
  induction nodes as [|node nodes IH]; intros tr r tr'; simpl.
  - intros [= <- <-]. exists []. rewrite app_nil_r.
    repeat split; [constructor|simpl; lia].
  - rewrite run_bind.
    destruct (print_node node w tr) as [[[]|e] tr1] eqn:Hnode;
      apply print_node_one_line in Hnode as (out1 & -> & Hout1 & Hlen1).
    + intros Hrest. apply IH in Hrest as (out2 & -> & Hout2 & Hlen2).
      exists (out1 ++ out2)%list. rewrite app_assoc. split; [done|].
      split; [by apply Forall_app|]. rewrite length_app. lia.
    + intros [= <- <-]. exists out1. repeat split; [done|lia].
Qed.

(** X14: when [get_flow_status] returns true on a [flows] list, it has
    printed the length of the list and then at most one line per item. *)
Theorem get_flow_status_line_bound (w : env) (tr : list event) (g : response)
    (body : gmap string pyval) (l : list pyval) (tr' : list event) :
  net w (calls_made tr) = Responded g ->
  status_code g = 200 ->
  json g = Json (PDict body) ->
  body !! "flows" = Some (PList l) ->
  get_flow_status w tr = (Return true, tr') ->
  exists lines,
    tr' = (tr ++ Sent (Get "http://localhost:1880/flows")
              :: Printed ("Number of nodes: " ++ str_of_Z (Z.of_nat (length l)))
              :: lines)%list
    /\ only_printed lines /\ (length lines <= length l)%nat.
Proof.
  intros Hget Hg Hjson Hflows.
  rewrite get_flow_status_run, get_flow_status_try_run, Hget, Hg.
  unfold flows_of. rewrite Hjson, Hflows. simpl.
  destruct (for_each l print_node w _) as [[[]|e] tr2] eqn:Hloop; [|discriminate].
  intros [= <-].
  apply for_each_line_bound in Hloop as (lines & -> & Hlines & Hlen).
  exists lines. by rewrite <- app_assoc.
Qed.

(** X15: the run of [deploy_flow] depends on the world only through the
    file [test-flow.json] and the answers to its two calls: no other file,
    no later answer and no formatting of values matters. *)
Theorem deploy_flow_locality (w1 w2 : env) (tr : list event) :
  fs w1 "test-flow.json" = fs w2 "test-flow.json" ->
  net w1 (calls_made tr) = net w2 (calls_made tr) ->
  net w1 (S (calls_made tr)) = net w2 (S (calls_made tr)) ->
  deploy_flow w1 tr = deploy_flow w2 tr.
Proof.
  intros Hfs Hget Hpost. rewrite !deploy_flow_run, Hfs.
  destruct (fs w2 "test-flow.json") as [| |[msg|nodes]]; try done.
  by rewrite !deploy_flow_try_run, Hget, Hpost.
Qed.

Lemma format_ext (w1 w2 : env) (v : pyval) :
  (forall x, repr w1 x = repr w2 x) -> format w1 v = format w2 v.
Proof. intros Hrepr. destruct v; simpl; by rewrite ?Hrepr. Qed.

Lemma print_node_ext (w1 w2 : env) (v : pyval) (tr : list event) :
  (forall x, repr w1 x = repr w2 x) -> print_node v w1 tr = print_node v w2 tr.
Proof.
  intros Hrepr. destruct v as [| | | | | |d];
    try (by rewrite !print_node_not_dict).
  rewrite !print_node_dict. unfold descriptor_lines.
  destruct (lacks_type d); [done|].
  destruct (py_eq_str _ _); [by rewrite (format_ext w1 w2)|].
  destruct (d !! "name"); [|done].
  by rewrite !(format_ext w1 w2).
Qed.

Lemma for_each_ext (w1 w2 : env) (nodes : list pyval) :
  (forall x, repr w1 x = repr w2 x) ->
  forall tr, for_each nodes print_node w1 tr = for_each nodes print_node w2 tr.
Proof.
  intros Hrepr. induction nodes as [|v nodes IH]; intros tr; simpl; [done|].
  rewrite !run_bind, (print_node_ext w1 w2) by done.
  destruct (print_node v w2 tr) as [[[]|e] tr1]; [apply IH|done].
Qed.

(** X16: the run of [get_flow_status] depends on the world only through
    the answer to its one call and the formatting of values; it reads no
    file. *)
Theorem get_flow_status_locality (w1 w2 : env) (tr : list event) :
  net w1 (calls_made tr) = net w2 (calls_made tr) ->
  (forall v, repr w1 v = repr w2 v) ->
  get_flow_status w1 tr = get_flow_status w2 tr.
Proof.
  intros Hget Hrepr.
  rewrite !get_flow_status_run, !get_flow_status_try_run, Hget.
  destruct (net w2 (calls_made tr)) as [msg|g]; [done|].
  destruct (status_code g =? 200); [|done].
  destruct (flows_of g) as [flows|e]; [|done].
  destruct (items_of flows) as [[n nodes]|e]; [|done].
  by rewrite (for_each_ext w1 w2).
Qed.

(** ** Instances of the further properties *)

Lemma deploy_flow_get_body_not_object_witness :
  json (ok_response (PList [])) = Json (PList [])
  /\ deploy_flow world_get_list [] =
       (Return false,
        ([] ++ [Sent (Get "http://localhost:1880/flows");
                Printed ("Error deploying flow: '" ++ type_name (PList [])
                         ++ "' object has no attribute 'get'")])%list).
Proof.
  split; [reflexivity|].
  apply (deploy_flow_get_body_not_object world_get_list [] sample_nodes
           (ok_response (PList [])) (PList []));
    [reflexivity|reflexivity|reflexivity|reflexivity|discriminate].
Defined.

Lemma deploy_flow_get_unreachable_witness :
  net world_offline (calls_made []) = Failed "Connection refused"
  /\ deploy_flow world_offline [] =
       (Return false,
        ([] ++ [Sent (Get "http://localhost:1880/flows");
                Printed ("Error deploying flow: " ++ "Connection refused")])%list).
Proof.
  split; [reflexivity|].
  apply (deploy_flow_get_unreachable world_offline [] sample_nodes
           "Connection refused"); reflexivity.
Defined.

Lemma deploy_flow_post_unreachable_witness :
  net world_post_refused (S (calls_made [])) = Failed "Connection refused"
  /\ exists m : gmap string pyval,
       m !! "flows" = Some sample_nodes /\
       deploy_flow world_post_refused [] =
         (Return false,
          ([] ++ [Sent (Get "http://localhost:1880/flows");
                  Sent (Post "http://localhost:1880/flows" (PDict m)
                          {[ "Content-Type" := "application/json" ]});
                  Printed ("Error deploying flow: " ++ "Connection refused")])%list).
Proof.
  split; [reflexivity|].
  apply (deploy_flow_post_unreachable world_post_refused [] sample_nodes
           (rev_response (PStr "abc")) "Connection refused");
    [reflexivity|reflexivity| |reflexivity].
  right. eexists. reflexivity.
Defined.

Lemma deploy_flow_post_shape_witness :
  deploy_flow world_accepting [] =
    (Return true,
     ([] ++ [Sent (Get flows_url); post_flows sample_nodes (PStr "abc");
             Printed "Flow deployed successfully!"])%list)
  /\ flows_url = "http://localhost:1880/flows"
  /\ json_headers = {[ "Content-Type" := "application/json" ]}
  /\ exists m : gmap string pyval,
       PDict (payload sample_nodes (PStr "abc")) = PDict m
       /\ m !! "flows" = Some sample_nodes
       /\ (forall k, is_Some (m !! k) -> k = "flows" \/ k = "rev")
       /\ (forall v, m !! "rev" = Some v ->
             exists g d,
               net world_accepting (calls_made []) = Responded g /\
               status_code g = 200 /\
               json g = Json (PDict d) /\ d !! "rev" = Some v).
Proof.
  split; [vm_compute; reflexivity|].
  apply (deploy_flow_post_shape world_accepting [] sample_nodes (Return true)
           [Sent (Get flows_url); post_flows sample_nodes (PStr "abc");
            Printed "Flow deployed successfully!"]
           flows_url (PDict (payload sample_nodes (PStr "abc"))) json_headers);
    [reflexivity|vm_compute; reflexivity|].
  right. left. reflexivity.
Defined.

Lemma get_flow_status_non_object_descriptor_witness :
  Forall (fun d => lacks_type d = false) [tab_main]
  /\ get_flow_status
       (world_status
          (PDict {[ "flows" := PList [PDict tab_main; PInt 1; PStr "later"] ]})) [] =
       (Return false,
        ([] ++ Sent (Get "http://localhost:1880/flows")
            :: Printed ("Number of nodes: "
                        ++ str_of_Z (Z.of_nat (length [tab_main] + 1
                                               + length [PStr "later"])))
            :: flat_map
                 (descriptor_lines
                    (world_status
                       (PDict {[ "flows" :=
                                   PList [PDict tab_main; PInt 1; PStr "later"] ]})))
                 [tab_main]
            ++ [Printed ("Error getting flow status: '" ++ type_name (PInt 1)
                         ++ "' object has no attribute 'get'")])%list).
Proof.
  split; [by repeat constructor|].
  apply (get_flow_status_non_object_descriptor
           (world_status
              (PDict {[ "flows" := PList [PDict tab_main; PInt 1; PStr "later"] ]}))
           []
           (ok_response
              (PDict {[ "flows" := PList [PDict tab_main; PInt 1; PStr "later"] ]}))
           {[ "flows" := PList [PDict tab_main; PInt 1; PStr "later"] ]}
           [tab_main] (PInt 1) [PStr "later"]);
    [reflexivity|reflexivity|reflexivity|reflexivity|by repeat constructor
    |discriminate].
Defined.

Lemma get_flow_status_flows_not_sized_witness :
  is_sized PNone = false
  /\ get_flow_status (world_status (PDict {[ "flows" := PNone ]})) [] =
       (Return false,
        ([] ++ [Sent (Get "http://localhost:1880/flows");
                Printed ("Error getting flow status: object of type '"
                         ++ type_name PNone ++ "' has no len()")])%list).
Proof.
  split; [reflexivity|].
  apply (get_flow_status_flows_not_sized
           (world_status (PDict {[ "flows" := PNone ]})) []
           (ok_response (PDict {[ "flows" := PNone ]}))
           {[ "flows" := PNone ]} PNone); reflexivity.
Defined.

Lemma print_node_tab_witness :
  tab_named !! "name" = Some (PStr "n")
  /\ print_node (PDict tab_named) world_offline [] =
       (Return tt,
        ([] ++ [Printed ("Flow tab: "
                         ++ match tab_named !! "label" with
                            | Some label => format world_offline label
                            | None => "Unnamed"
                            end)])%list)
  /\ print_node (PDict tab_named) world_offline [] =
       (Return tt, [Printed "Flow tab: None"]).
Proof.
  split; [reflexivity|]. split; [|vm_compute; reflexivity].
  apply (print_node_tab world_offline [] tab_named). reflexivity.
Defined.

Lemma get_flow_status_line_bound_witness :
  exists lines,
    [Sent (Get flows_url); Printed "Number of nodes: 2";
     Printed "Flow tab: Main"; Printed "Node: trigger1 (Type: inject)"] =
      ([] ++ Sent (Get "http://localhost:1880/flows")
          :: Printed ("Number of nodes: " ++ str_of_Z (Z.of_nat
               (length (List.map PDict [tab_main; inject_trigger1]))))
          :: lines)%list
    /\ only_printed lines
    /\ (length lines <= length (List.map PDict [tab_main; inject_trigger1]))%nat.
Proof.
  apply (get_flow_status_line_bound
           (world_flows [tab_main; inject_trigger1]) []
           (ok_response (PDict (flows_body [tab_main; inject_trigger1])))
           (flows_body [tab_main; inject_trigger1])
           (List.map PDict [tab_main; inject_trigger1]));
    [reflexivity|reflexivity|reflexivity|reflexivity|vm_compute; reflexivity].
Defined.

Lemma deploy_flow_locality_witness :
  fs world_accepting "other.json" <> fs world_elsewhere "other.json"
  /\ net world_accepting 2 <> net world_elsewhere 2
  /\ deploy_flow world_accepting [] = deploy_flow world_elsewhere [].
Proof.
  split; [discriminate|]. split; [discriminate|].
  apply (deploy_flow_locality world_accepting world_elsewhere []); reflexivity.
Defined.

Lemma get_flow_status_locality_witness :
  fs (world_flows [tab_main]) "test-flow.json"
    <> fs (world_flows_elsewhere [tab_main]) "test-flow.json"
  /\ net (world_flows [tab_main]) 1 <> net (world_flows_elsewhere [tab_main]) 1
  /\ get_flow_status (world_flows [tab_main]) [] =
     get_flow_status (world_flows_elsewhere [tab_main]) [].
Proof.
  split; [discriminate|]. split; [discriminate|].
  apply (get_flow_status_locality (world_flows [tab_main])
           (world_flows_elsewhere [tab_main]) []); [reflexivity|].
  intros v. reflexivity.
Defined.
